(** * SecretMessenger: connection registry, fan-out and message mutation

    A shallow embedding of the real-time core of the SecretMessenger
    backend:

    - [ConnectionManager] and the chat routes of [backend/app/main.py],
      over the tables of [backend/app/models.py];
    - [MessageService] of [backend/app/services/message.py] and
      [ChatService] of [backend/app/services/chat.py], over the tables
      of [backend/alembic/versions/001_initial_schema.py].

    Python integers are [Z], strings are [string], a SQL table is the
    list of its rows in storage order, the dictionary of live
    connections is a [gmap].  A function that can raise returns a
    [Py.result]; a service method returns the committed store together
    with its result.  [datetime.utcnow()] is an argument [now], read
    once per call.  The calls to Redis are taken to succeed, and the
    lengths of the VARCHAR columns are not modelled. *)

From Stdlib Require Import ZArith Lia.
From stdpp Require Import base option list gmap strings.

Open Scope Z_scope.

(** ** Exceptions and results *)

Module Py.

(** The exceptions the modelled code can raise. *)
Inductive exn : Type :=
| ValueError             (* list.remove(x): x not in list *)
| MultipleResultsFound   (* Result.scalar_one_or_none() on 2+ rows *)
| IntegrityError         (* a constraint of the schema refused a commit *)
| HTTPException (status_code : Z)
| TransportError.        (* a WebSocket call failed *)

Inductive result (A : Type) : Type :=
| Ok (a : A)
| Raise (e : exn).
Arguments Ok {A} a.
Arguments Raise {A} e.

Definition bind {A B : Type} (r : result A) (k : A → result B) : result B :=
  match r with
  | Ok a => k a
  | Raise e => Raise e
  end.

#[global] Instance exn_eq_dec : EqDecision exn.
Proof. solve_decision. Defined.

(** [x ← r; k] runs [k] on the value of [r], or re-raises. *)
#[global] Instance result_bind : MBind result := λ A B k r, bind r k.
#[global] Instance result_ret : MRet result := λ A a, Ok a.

End Py.
Export Py.

(** ** [main.py]: the tables of [models.py] *)

Module Models.

Record User : Type := mkUser {
  user_id_ : Z;
  username : string;
  email : string;
  password_hash : string;
  user_created_at : Z
}.

Record Chat : Type := mkChat {
  chat_id_ : Z;
  chat_name : string;
  chat_created_at : Z
}.

Record ChatParticipant : Type := mkChatParticipant {
  cp_id : Z;
  cp_chat_id : Z;
  cp_user_id : Z;
  cp_joined_at : Z
}.

(** The session [db]: one list of rows per table. *)
Record Session : Type := mkSession {
  users : list User;
  chats : list Chat;
  chat_participants : list ChatParticipant
}.

(** The next value of an autoincrement primary key: one more than
    the largest key in the table, 1 for an empty table. *)
Definition next_id (ids : list Z) : Z := 1 + foldr Z.max 0 ids.

(** [Query.first()] and [Query.all()] without ORDER BY: rows come in
    storage order. *)
Definition first {A : Type} (rows : list A) : option A := head rows.

End Models.

(** ** [main.py]: [ConnectionManager] *)

Module ConnectionManager.
Import Models.

(** A [WebSocket] object, by identity (Starlette's connections
    compare by [is]). *)
Definition WebSocket : Type := nat.

Section Manager.
(** The JSON payload; the manager never looks inside. *)
Context {Message : Type}.

(** One call of [connection.send_json(message)] and whether it
    returned ([true]) or raised ([false]). *)
Record Send : Type := mkSend {
  send_to : WebSocket;
  send_payload : Message;
  send_ok : bool
}.

(** The manager's dictionary together with the calls made on the
    transport so far. *)
Record World : Type := mkWorld {
  active_connections : gmap Z (list WebSocket);
  wire : list Send
}.

(** The transport: whether [accept()] succeeds, and whether a
    [send_json] succeeds given everything sent before. *)
Variable accept : WebSocket → bool.
Variable send_json : list Send → WebSocket → Message → bool.

Definition init : World := mkWorld ∅ [].

(** The live connections of a user: [active_connections.get(u, [])]. *)
Definition live (w : World) (user_id : Z) : list WebSocket :=
  default [] (active_connections w !! user_id).

(** [ConnectionManager.connect] *)
Definition connect (websocket : WebSocket) (user_id : Z) (w : World)
  : result World :=
  if accept websocket then
    let ac := active_connections w in
    let ac := match ac !! user_id with
              | None => <[user_id := []]> ac
              | Some _ => ac
              end in
    let ac := <[user_id := default [] (ac !! user_id) ++ [websocket]]> ac in
    Ok (mkWorld ac (wire w))
  else Raise TransportError.

(** [list.remove(x)]: drops the first occurrence, [ValueError]
    when there is none. *)
Fixpoint list_remove (x : WebSocket) (l : list WebSocket)
  : result (list WebSocket) :=
  match l with
  | [] => Raise ValueError
  | y :: l' =>
      if decide (y = x) then Ok l'
      else l'' ← list_remove x l' ; Ok (y :: l'')
  end.

(** [ConnectionManager.disconnect] *)
Definition disconnect (websocket : WebSocket) (user_id : Z) (w : World)
  : result World :=
  let ac := active_connections w in
  match ac !! user_id with
  | Some conns =>
      conns' ← list_remove websocket conns ;
      match conns' with
      | [] => Ok (mkWorld (delete user_id ac) (wire w))
      | _ => Ok (mkWorld (<[user_id := conns']> ac) (wire w))
      end
  | None => Ok w
  end.

(** One iteration of the loop of [send_to_user]:
    [try: await connection.send_json(message) / except: pass]. *)
Definition send_one (message : Message) (w : World) (connection : WebSocket)
  : World :=
  mkWorld (active_connections w)
          (wire w ++ [mkSend connection message
                             (send_json (wire w) connection message)]).

(** [ConnectionManager.send_to_user] *)
Definition send_to_user (user_id : Z) (message : Message) (w : World)
  : World :=
  match active_connections w !! user_id with
  | Some conns => foldl (send_one message) w conns
  | None => w
  end.

(** [ConnectionManager.send_to_chat]; [exclude_user_id] defaults to
    [None], which no [user_id] equals. *)
Definition send_to_chat (chat_id : Z) (message : Message) (db : Session)
    (exclude_user_id : option Z) (w : World) : World :=
  let participants :=
    filter (λ p, cp_chat_id p = chat_id) (chat_participants db) in
  foldl (λ w participant,
           if decide (Some (cp_user_id participant) ≠ exclude_user_id)
           then send_to_user (cp_user_id participant) message w
           else w)
        w participants.

(** A request of the connection lifecycle. *)
Inductive op : Type :=
| Connect (websocket : WebSocket) (user_id : Z)
| Disconnect (websocket : WebSocket) (user_id : Z).

Definition step (o : op) (w : World) : result World :=
  match o with
  | Connect ws u => connect ws u w
  | Disconnect ws u => disconnect ws u w
  end.

(** A sequence of requests, stopping at the first that raises. *)
Fixpoint run (ops : list op) (w : World) : result World :=
  match ops with
  | [] => Ok w
  | o :: ops' => w' ← step o w ; run ops' w'
  end.

(** [user_id] is the user of a participant row of [chat_id]. *)
Definition is_participant (db : Session) (chat_id user_id : Z) : Prop :=
  user_id ∈ (cp_user_id <$>
               filter (λ p, cp_chat_id p = chat_id) (chat_participants db)).

#[global] Instance is_participant_dec db c u : Decision (is_participant db c u).
Proof. unfold is_participant. apply _. Defined.

(** No handle of [user_id] is also registered under another user:
    [websocket_endpoint] registers each socket once, under the
    user of its token. *)
Definition owns_exclusively (w : World) (user_id : Z) : Prop :=
  ∀ u ws, u ≠ user_id → ws ∈ live w u → ws ∉ live w user_id.

(** Every key of the dictionary holds a non-empty list. *)
Definition no_empty_entry (w : World) : Prop :=
  ∀ u conns, active_connections w !! u = Some conns → conns ≠ [].

End Manager.

Arguments Send : clear implicits.
Arguments World : clear implicits.
Arguments op : clear implicits.

End ConnectionManager.

(** ** [main.py]: the chat routes *)

Module Main.
Import Models.

(** The response model [ChatResponse]. *)
Record ChatResponse : Type := mkChatResponse {
  id : Z;
  name : string;
  created_at : Z
}.

Definition response_of (c : Chat) : ChatResponse :=
  mkChatResponse (chat_id_ c) (chat_name c) (chat_created_at c).

(** [db.add(ChatParticipant(chat_id=..., user_id=...))] for each id of
    [user_ids], in order. *)
Definition add_participants (chat_id : Z) (user_ids : list Z) (now : Z)
    (db : Session) : Session :=
  foldl (λ db user_id,
           mkSession (users db) (chats db)
             (chat_participants db ++
                [mkChatParticipant (next_id (cp_id <$> chat_participants db))
                                   chat_id user_id now]))
        db user_ids.

(** [db.add(Chat(name=...)); db.commit(); db.refresh(db_chat)] *)
Definition add_chat (chat_name : string) (now : Z) (db : Session)
  : Chat * Session :=
  let db_chat := mkChat (next_id (chat_id_ <$> chats db)) chat_name now in
  (db_chat, mkSession (users db) (chats db ++ [db_chat]) (chat_participants db)).

(** The route [create_chat] (POST /api/chats). *)
Definition create_chat (chat_name : string) (participant_ids : list Z)
    (now : Z) (db : Session) : ChatResponse * Session :=
  let '(db_chat, db) := add_chat chat_name now db in
  let db := add_participants (chat_id_ db_chat) participant_ids now db in
  (response_of db_chat, db).

(** [func.count(ChatParticipant.id)] of the group of [chat] in the join
    filtered by [ChatParticipant.user_id.in_(user_ids)]. *)
Definition count_in (db : Session) (user_ids : list Z) (chat : Chat) : Z :=
  Z.of_nat (length (filter (λ p, cp_chat_id p = chat_id_ chat
                                 ∧ cp_user_id p ∈ user_ids)
                           (chat_participants db))).

(** The query of [create_or_get_direct_chat]: the first chat whose
    group counts two rows. *)
Definition existing_direct_chat (db : Session) (user1_id user2_id : Z)
  : option Chat :=
  first (filter (λ chat, count_in db [user1_id; user2_id] chat = 2) (chats db)).

(** The route [create_or_get_direct_chat]
    (POST /api/chats/direct/{contact_id}). *)
Definition create_or_get_direct_chat (contact_id : Z) (current_user : User)
    (now : Z) (db : Session) : result (ChatResponse * Session) :=
  match existing_direct_chat db (user_id_ current_user) contact_id with
  | Some existing_chat => Ok (response_of existing_chat, db)
  | None =>
      match first (filter (λ u, user_id_ u = contact_id) (users db)) with
      | None => Raise (HTTPException 404)
      | Some contact_user =>
          let chat_name := "Chat: " +:+ username current_user +:+ " & "
                             +:+ username contact_user in
          let '(db_chat, db) := add_chat chat_name now db in
          let db := add_participants (chat_id_ db_chat)
                      [user_id_ current_user; contact_id] now db in
          Ok (response_of db_chat, db)
      end
  end.

(** The users of the participant rows of a chat. *)
Definition participant_ids (db : Session) (chat_id : Z) : list Z :=
  cp_user_id <$> filter (λ p, cp_chat_id p = chat_id) (chat_participants db).

(** Every participant row belongs to a chat of the table (the foreign
    key [chat_participants.chat_id → chats.id]). *)
Definition participants_have_chat (db : Session) : Prop :=
  ∀ p, p ∈ chat_participants db →
       cp_chat_id p ∈ (chat_id_ <$> chats db).

End Main.

(** ** The relational store of [001_initial_schema.py] *)

Module Schema.

(** [message_status_check]: status IN ('sent', 'delivered', 'read'). *)
Inductive Status : Type := sent | delivered | read.

(** [conversation_type_check]: type IN ('direct', 'group'). *)
Inductive ConversationType : Type := direct | group.

(** [message_type_check]. *)
Inductive MessageType : Type := text | file | image | video | audio.

#[global] Instance Status_eq_dec : EqDecision Status.
Proof. solve_decision. Defined.
#[global] Instance ConversationType_eq_dec : EqDecision ConversationType.
Proof. solve_decision. Defined.
#[global] Instance MessageType_eq_dec : EqDecision MessageType.
Proof. solve_decision. Defined.

Record User : Type := mkUser {
  u_id : Z;
  u_username : string;
  u_avatar_url : option string
}.

Record Conversation : Type := mkConversation {
  c_id : Z;
  c_type : ConversationType;
  c_name : option string;
  c_description : option string;
  c_created_at : Z
}.

Record ConversationParticipant : Type := mkConversationParticipant {
  p_id : Z;
  p_conversation_id : Z;
  p_user_id : Z;
  p_joined_at : Z;
  p_is_muted : option bool;
  p_muted_until : option Z
}.

Record Message : Type := mkMessage {
  m_id : Z;
  m_conversation_id : Z;
  m_sender_id : Z;
  m_content : string;
  m_message_type : MessageType;
  m_created_at : Z;
  m_updated_at : option Z;
  m_deleted_at : option Z;
  m_edited_at : option Z;
  m_version : Z;
  m_reply_to_id : option Z
}.

Record MessageVersion : Type := mkMessageVersion {
  mv_id : Z;
  mv_message_id : Z;
  mv_version : Z;
  mv_content : string;
  mv_created_at : Z
}.

Record MessageStatus : Type := mkMessageStatus {
  ms_id : Z;
  ms_message_id : Z;
  ms_user_id : Z;
  ms_status : Status;
  ms_created_at : Z
}.

Record MessageReaction : Type := mkMessageReaction {
  mr_id : Z;
  mr_message_id : Z;
  mr_user_id : Z;
  mr_emoji : string;
  mr_created_at : Z
}.

Record File : Type := mkFile {
  f_id : Z;
  f_message_id : option Z;
  f_filename : string;
  f_thumbnail_path : option string
}.

(** The dictionary [message_data] that [_cache_message] serialises. *)
Record MessageData : Type := mkMessageData {
  md_id : Z;
  md_conversation_id : Z;
  md_sender_id : Z;
  md_content : string;
  md_created_at : Z;
  md_edited_at : option Z;
  md_deleted_at : option Z
}.

(** The database tables, and the Redis lists [chat_messages:<id>]
    keyed by conversation id. *)
Record Store : Type := mkStore {
  users : list User;
  conversations : list Conversation;
  conversation_participants : list ConversationParticipant;
  messages : list Message;
  message_versions : list MessageVersion;
  message_status : list MessageStatus;
  message_reactions : list MessageReaction;
  files : list File;
  redis : gmap Z (list MessageData)
}.

Definition empty : Store := mkStore [] [] [] [] [] [] [] [] ∅.

Definition set_conversations (v : list Conversation) (s : Store) : Store :=
  mkStore (users s) v (conversation_participants s) (messages s)
    (message_versions s) (message_status s) (message_reactions s) (files s)
    (redis s).
Definition set_conversation_participants (v : list ConversationParticipant)
    (s : Store) : Store :=
  mkStore (users s) (conversations s) v (messages s)
    (message_versions s) (message_status s) (message_reactions s) (files s)
    (redis s).
Definition set_messages (v : list Message) (s : Store) : Store :=
  mkStore (users s) (conversations s) (conversation_participants s) v
    (message_versions s) (message_status s) (message_reactions s) (files s)
    (redis s).
Definition set_message_versions (v : list MessageVersion) (s : Store) : Store :=
  mkStore (users s) (conversations s) (conversation_participants s)
    (messages s) v (message_status s) (message_reactions s) (files s)
    (redis s).
Definition set_message_status (v : list MessageStatus) (s : Store) : Store :=
  mkStore (users s) (conversations s) (conversation_participants s)
    (messages s) (message_versions s) v (message_reactions s) (files s)
    (redis s).
Definition set_message_reactions (v : list MessageReaction) (s : Store)
  : Store :=
  mkStore (users s) (conversations s) (conversation_participants s)
    (messages s) (message_versions s) (message_status s) v (files s)
    (redis s).
Definition set_files (v : list File) (s : Store) : Store :=
  mkStore (users s) (conversations s) (conversation_participants s)
    (messages s) (message_versions s) (message_status s)
    (message_reactions s) v (redis s).
Definition set_redis (v : gmap Z (list MessageData)) (s : Store) : Store :=
  mkStore (users s) (conversations s) (conversation_participants s)
    (messages s) (message_versions s) (message_status s)
    (message_reactions s) (files s) v.

(** A value of a sequence-backed primary key that no row holds. *)
Definition next_id (ids : list Z) : Z := 1 + foldr Z.max 0 ids.

(** [Result.scalar_one_or_none()] *)
Definition scalar_one_or_none {A : Type} (rows : list A) : result (option A) :=
  match rows with
  | [] => Ok None
  | [row] => Ok (Some row)
  | _ => Raise MultipleResultsFound
  end.

(** *** Foreign keys and unique constraints, checked on INSERT *)

Definition message_exists (s : Store) (message_id : Z) : Prop :=
  message_id ∈ (m_id <$> messages s).
Definition user_exists (s : Store) (user_id : Z) : Prop :=
  user_id ∈ (u_id <$> users s).
Definition conversation_exists (s : Store) (conversation_id : Z) : Prop :=
  conversation_id ∈ (c_id <$> conversations s).
(** [reply_to_id] is NULL or the id of a message. *)
Definition reply_to_exists (s : Store) (reply_to_id : option Z) : Prop :=
  match reply_to_id with
  | Some message_id => message_exists s message_id
  | None => True
  end.

#[global] Instance message_exists_dec s i : Decision (message_exists s i).
Proof. unfold message_exists. apply _. Defined.
#[global] Instance user_exists_dec s i : Decision (user_exists s i).
Proof. unfold user_exists. apply _. Defined.
#[global] Instance conversation_exists_dec s i :
  Decision (conversation_exists s i).
Proof. unfold conversation_exists. apply _. Defined.
#[global] Instance reply_to_exists_dec s o : Decision (reply_to_exists s o).
Proof. destruct o; simpl; apply _. Defined.

(** INSERT INTO conversations *)
Definition insert_conversation (row : Conversation) (s : Store) : result Store :=
  Ok (set_conversations (conversations s ++ [row]) s).

(** INSERT INTO conversation_participants: both foreign keys and
    [unique_conversation_participant]. *)
Definition insert_participant (row : ConversationParticipant) (s : Store)
  : result Store :=
  if decide (conversation_exists s (p_conversation_id row)
             ∧ user_exists s (p_user_id row)
             ∧ (p_conversation_id row, p_user_id row) ∉
                 ((λ p, (p_conversation_id p, p_user_id p))
                    <$> conversation_participants s))
  then Ok (set_conversation_participants
             (conversation_participants s ++ [row]) s)
  else Raise IntegrityError.

(** INSERT INTO messages: the three foreign keys. *)
Definition insert_message (row : Message) (s : Store) : result Store :=
  if decide (conversation_exists s (m_conversation_id row)
             ∧ user_exists s (m_sender_id row)
             ∧ reply_to_exists s (m_reply_to_id row))
  then Ok (set_messages (messages s ++ [row]) s)
  else Raise IntegrityError.

(** INSERT INTO message_versions: the foreign key and
    [unique_message_version]. *)
Definition insert_version (row : MessageVersion) (s : Store) : result Store :=
  if decide (message_exists s (mv_message_id row)
             ∧ (mv_message_id row, mv_version row) ∉
                 ((λ v, (mv_message_id v, mv_version v))
                    <$> message_versions s))
  then Ok (set_message_versions (message_versions s ++ [row]) s)
  else Raise IntegrityError.

(** INSERT INTO message_status: both foreign keys and
    [unique_message_user_status]. *)
Definition insert_status (row : MessageStatus) (s : Store) : result Store :=
  if decide (message_exists s (ms_message_id row)
             ∧ user_exists s (ms_user_id row)
             ∧ (ms_message_id row, ms_user_id row) ∉
                 ((λ r, (ms_message_id r, ms_user_id r)) <$> message_status s))
  then Ok (set_message_status (message_status s ++ [row]) s)
  else Raise IntegrityError.

(** INSERT INTO message_reactions: both foreign keys and
    [unique_message_user_reaction]. *)
Definition insert_reaction (row : MessageReaction) (s : Store) : result Store :=
  if decide (message_exists s (mr_message_id row)
             ∧ user_exists s (mr_user_id row)
             ∧ (mr_message_id row, mr_user_id row, mr_emoji row) ∉
                 ((λ r, (mr_message_id r, mr_user_id r, mr_emoji r))
                    <$> message_reactions s))
  then Ok (set_message_reactions (message_reactions s ++ [row]) s)
  else Raise IntegrityError.

(** UPDATE ... SET <the attributes assigned> WHERE id = <primary key
    of the loaded object> *)
Definition update_message_row (id : Z) (set : Message → Message) (s : Store)
  : Store :=
  set_messages
    ((λ m, if decide (m_id m = id) then set m else m) <$> messages s) s.
Definition update_status_row (id : Z) (status : Status) (created_at : Z)
    (s : Store) : Store :=
  set_message_status
    ((λ r, if decide (ms_id r = id)
           then mkMessageStatus (ms_id r) (ms_message_id r) (ms_user_id r)
                  status created_at
           else r) <$> message_status s) s.
Definition update_file_row (id : Z) (message_id : Z) (s : Store) : Store :=
  set_files
    ((λ f, if decide (f_id f = id)
           then mkFile (f_id f) (Some message_id) (f_filename f)
                  (f_thumbnail_path f)
           else f) <$> files s) s.

(** DELETE ... WHERE id = <primary key of the loaded object> *)
Definition delete_reaction_row (row : MessageReaction) (s : Store) : Store :=
  set_message_reactions
    (filter (λ r, mr_id r ≠ mr_id row) (message_reactions s)) s.

(** The rows of [message_status] for one (message, user). *)
Definition status_rows (s : Store) (message_id user_id : Z)
  : list MessageStatus :=
  filter (λ r, ms_message_id r = message_id ∧ ms_user_id r = user_id)
         (message_status s).

(** The position of a status on the chain sent → delivered → read;
    0 stands for "no row". *)
Definition rank (status : option Status) : nat :=
  match status with
  | None => 0
  | Some sent => 1
  | Some delivered => 2
  | Some read => 3
  end.

(** The stored status of (message, user): that of the first row. *)
Definition stored_status (s : Store) (message_id user_id : Z) : option Status :=
  ms_status <$> head (status_rows s message_id user_id).

(** [unique_message_user_status] holds of the table. *)
Definition unique_message_user_status (s : Store) : Prop :=
  NoDup ((λ r, (ms_message_id r, ms_user_id r)) <$> message_status s).

(** The primary key of [message_status] is unique. *)
Definition message_status_pkey (s : Store) : Prop :=
  NoDup (ms_id <$> message_status s).

(** The foreign keys [message_status.message_id] and
    [message_reactions.message_id] hold of the tables. *)
Definition status_has_message (s : Store) : Prop :=
  ∀ r, r ∈ message_status s → message_exists s (ms_message_id r).
Definition reaction_has_message (s : Store) : Prop :=
  ∀ r, r ∈ message_reactions s → message_exists s (mr_message_id r).

(** A transaction: [r] is the outcome of the statements run on a
    working copy of [s].  When one of them raised, nothing is
    committed and the store stays [s]. *)
Definition atomically {A : Type} (s : Store) (r : result (A * Store))
  : Store * result A :=
  match r with
  | Ok (a, s') => (s', Ok a)
  | Raise e => (s, Raise e)
  end.

(** *** Further integrity conditions *)

(** The primary key of [messages] is unique. *)
Definition messages_pkey (s : Store) : Prop :=
  NoDup (m_id <$> messages s).


(** The primary key of [message_reactions] is unique. *)
Definition message_reactions_pkey (s : Store) : Prop :=
  NoDup (mr_id <$> message_reactions s).

End Schema.

(** ** [services/message.py]: [MessageService] *)

Module MessageService.
Import Schema.

(** Modelled from the spec: the column default of [Message.version].
    The model class [app.models.message.Message] that declares it is
    not among the sources; the spec has the version counter start at 1. *)
Definition default_version : Z := 1.

(** [ltrim(key, -50, -1)]: keep the last 50 elements. *)
Definition ltrim_last (n : nat) {A : Type} (l : list A) : list A :=
  drop (length l - n)%nat l.

(** [_cache_message]: push the message on the Redis list of its
    conversation and trim the list.  ([expire] is not modelled.) *)
Definition _cache_message (message : Message) (s : Store) : Store :=
  let message_data :=
    mkMessageData (m_id message) (m_conversation_id message)
      (m_sender_id message) (m_content message) (m_created_at message)
      (m_edited_at message) (m_deleted_at message) in
  let key := m_conversation_id message in
  let l := default [] (redis s !! key) ++ [message_data] in
  set_redis (<[key := ltrim_last 50 l]> (redis s)) s.

(** [_remove_from_cache] *)
Definition _remove_from_cache (message : Message) (s : Store) : Store :=
  _cache_message message s.

(** [get_message]: the eager loads do not change which row is found. *)
Definition get_message (message_id : Z) (s : Store) : result (option Message) :=
  scalar_one_or_none (filter (λ m, m_id m = message_id) (messages s)).

(** [create_message] *)
Definition create_message (chat_id sender_id : Z) (content : string)
    (message_type : MessageType) (reply_to_id file_id : option Z)
    (now : Z) (s : Store) : Store * result Message :=
  atomically s (
    let message :=
      mkMessage (next_id (m_id <$> messages s)) chat_id sender_id content
        message_type now None None None default_version reply_to_id in
    s ← insert_message message s;
    s ← match file_id with
        | Some file_id =>
            if decide (file_id ≠ 0) then
              file_ ← scalar_one_or_none
                        (filter (λ f, f_id f = file_id) (files s));
              match file_ with
              | Some file_ =>
                  Ok (update_file_row (f_id file_) (m_id message) s)
              | None => Ok s
              end
            else Ok s
        | None => Ok s
        end;
    let status :=
      mkMessageStatus (next_id (ms_id <$> message_status s)) (m_id message)
        sender_id sent now in
    s ← insert_status status s;
    Ok (message, _cache_message message s)).

(** [update_message] *)
Definition update_message (message_id user_id : Z) (content : string)
    (now : Z) (s : Store) : Store * result (option Message) :=
  atomically s (
    message ← get_message message_id s;
    match message with
    | None => Ok (None, s)
    | Some message =>
        if decide (m_sender_id message ≠ user_id) then Ok (None, s)
        else
          let version :=
            mkMessageVersion (next_id (mv_id <$> message_versions s))
              (m_id message) (m_version message) (m_content message) now in
          s ← insert_version version s;
          let version := m_version message + 1 in
          let edit (m : Message) :=
            mkMessage (m_id m) (m_conversation_id m) (m_sender_id m) content
              (m_message_type m) (m_created_at m) (Some now) (m_deleted_at m)
              (Some now) version (m_reply_to_id m) in
          let s := update_message_row (m_id message) edit s in
          let message := edit message in
          Ok (Some message, _cache_message message s)
    end).

(** [delete_message] *)
Definition delete_message (message_id user_id : Z) (now : Z) (s : Store)
  : Store * result bool :=
  atomically s (
    message ← scalar_one_or_none
                (filter (λ m, m_id m = message_id ∧ m_sender_id m = user_id)
                        (messages s));
    match message with
    | None => Ok (false, s)
    | Some message =>
        let delete (m : Message) :=
          mkMessage (m_id m) (m_conversation_id m) (m_sender_id m)
            (m_content m) (m_message_type m) (m_created_at m) (m_updated_at m)
            (Some now) (m_edited_at m) (m_version m) (m_reply_to_id m) in
        let s := update_message_row (m_id message) delete s in
        let message := delete message in
        Ok (true, _remove_from_cache message s)
    end).

(** [mark_as_delivered] *)
Definition mark_as_delivered (message_id user_id : Z) (now : Z) (s : Store)
  : Store * result bool :=
  atomically s (
    status ← scalar_one_or_none (status_rows s message_id user_id);
    match status with
    | Some status =>
        if decide (ms_status status = sent) then
          Ok (true, update_status_row (ms_id status) delivered now s)
        else Ok (true, s)
    | None =>
        let status :=
          mkMessageStatus (next_id (ms_id <$> message_status s)) message_id
            user_id delivered now in
        s ← insert_status status s;
        Ok (true, s)
    end).

(** [mark_as_read] *)
Definition mark_as_read (message_id user_id : Z) (now : Z) (s : Store)
  : Store * result bool :=
  atomically s (
    message ← scalar_one_or_none
                (filter (λ m, m_id m = message_id) (messages s));
    match message with
    | None => Ok (false, s)
    | Some message =>
        if decide (m_sender_id message = user_id) then Ok (false, s)
        else
          status ← scalar_one_or_none (status_rows s message_id user_id);
          match status with
          | Some status =>
              Ok (true, update_status_row (ms_id status) read now s)
          | None =>
              let status :=
                mkMessageStatus (next_id (ms_id <$> message_status s))
                  message_id user_id read now in
              s ← insert_status status s;
              Ok (true, s)
          end
    end).

(** The rows of [message_reactions] for one (message, user, emoji). *)
Definition reaction_rows (s : Store) (message_id user_id : Z) (emoji : string)
  : list MessageReaction :=
  filter (λ r, mr_message_id r = message_id ∧ mr_user_id r = user_id
               ∧ mr_emoji r = emoji)
         (message_reactions s).

(** [add_reaction]: the final [get_message] runs after the commit. *)
Definition add_reaction (message_id user_id : Z) (emoji : string) (now : Z)
    (s : Store) : Store * result (option Message) :=
  let '(s, r) :=
    atomically s (
      existing ← scalar_one_or_none (reaction_rows s message_id user_id emoji);
      match existing with
      | Some _ => Ok (true, s)
      | None =>
          let reaction :=
            mkMessageReaction (next_id (mr_id <$> message_reactions s))
              message_id user_id emoji now in
          s ← insert_reaction reaction s;
          Ok (false, s)
      end) in
  (s, _ ← r; get_message message_id s).

(** [remove_reaction] *)
Definition remove_reaction (message_id user_id : Z) (emoji : string)
    (s : Store) : Store * result bool :=
  atomically s (
    reaction ← scalar_one_or_none (reaction_rows s message_id user_id emoji);
    match reaction with
    | None => Ok (false, s)
    | Some reaction => Ok (true, delete_reaction_row reaction s)
    end).

End MessageService.

(** ** [services/chat.py]: [ChatService] *)

Module ChatService.
Import Schema.

(** The loop of [create_conversation] adding one participant row per
    user id. *)
Fixpoint add_participants (conversation_id : Z) (user_ids : list Z) (now : Z)
    (s : Store) : result Store :=
  match user_ids with
  | [] => Ok s
  | user_id :: user_ids =>
      let participant :=
        mkConversationParticipant
          (next_id (p_id <$> conversation_participants s))
          conversation_id user_id now None None in
      s ← insert_participant participant s;
      add_participants conversation_id user_ids now s
  end.

(** [create_conversation]; [creator_id] is not used by the code. *)
Definition create_conversation (creator_id : Z) (user_ids : list Z)
    (type : ConversationType) (name description : option string) (now : Z)
    (s : Store) : Store * result Conversation :=
  atomically s (
    let conversation :=
      mkConversation (next_id (c_id <$> conversations s)) type name
        description now in
    s ← insert_conversation conversation s;
    s ← add_participants (c_id conversation) user_ids now s;
    Ok (conversation, s)).

(** [conv.participants], as [selectinload] fills it. *)
Definition participants (s : Store) (conv : Conversation)
  : list ConversationParticipant :=
  filter (λ p, p_conversation_id p = c_id conv) (conversation_participants s).

(** The subquery of [get_direct_conversation]: [conversation_id] is
    selected when its group, restricted to the two users, counts two
    rows. *)
Definition in_subquery (s : Store) (user1_id user2_id conversation_id : Z)
  : Prop :=
  length (filter (λ p, p_conversation_id p = conversation_id
                       ∧ p_user_id p ∈ [user1_id; user2_id])
                 (conversation_participants s)) = 2%nat.

#[global] Instance in_subquery_dec s u1 u2 c : Decision (in_subquery s u1 u2 c).
Proof. unfold in_subquery. apply _. Defined.

(** [get_direct_conversation] *)
Definition get_direct_conversation (user1_id user2_id : Z) (s : Store)
  : option Conversation :=
  let conversations :=
    filter (λ c, in_subquery s user1_id user2_id (c_id c) ∧ c_type c = direct)
           (conversations s) in
  List.find
    (λ conv,
       let participant_ids : gset Z :=
         list_to_set (p_user_id <$> participants s conv) in
       bool_decide (participant_ids = {[user1_id; user2_id]}))
    conversations.

(** [is_participant] *)
Definition is_participant (conversation_id user_id : Z) (s : Store)
  : result bool :=
  row ← scalar_one_or_none
          (filter (λ p, p_conversation_id p = conversation_id
                        ∧ p_user_id p = user_id)
                  (conversation_participants s));
  Ok (bool_decide (is_Some row)).

(** [get_participant_ids] *)
Definition get_participant_ids (conversation_id : Z) (s : Store) : list Z :=
  p_user_id <$> filter (λ p, p_conversation_id p = conversation_id)
                       (conversation_participants s).

(** The LEFT OUTER JOIN of [get_unread_count]: each message with every
    status row of [user_id] for it, or with NULL when there is none. *)
Definition outerjoin_status (s : Store) (user_id : Z)
  : list (Message * option MessageStatus) :=
  m ← messages s;
  match status_rows s (m_id m) user_id with
  | [] => [(m, None)]
  | rows => (λ r, (m, Some r)) <$> rows
  end.

(** [MessageStatus.status.is_(None) OR MessageStatus.status != "read"] *)
Definition not_read (row : option MessageStatus) : Prop :=
  match row with
  | None => True
  | Some r => ms_status r ≠ read
  end.

#[global] Instance not_read_dec row : Decision (not_read row).
Proof. destruct row; simpl; apply _. Defined.

(** [get_unread_count] *)
Definition get_unread_count (conversation_id user_id : Z) (s : Store) : Z :=
  Z.of_nat (length (filter
    (λ '(m, status),
       m_conversation_id m = conversation_id
       ∧ m_sender_id m ≠ user_id
       ∧ m_deleted_at m = None
       ∧ not_read status)
    (outerjoin_status s user_id))).

(** The unread messages of a user in a conversation, in the words of
    the specification: sent by somebody else, not soft-deleted, and
    with no status row for the user or one that is not "read". *)
Definition unread (s : Store) (conversation_id user_id : Z) (m : Message)
  : Prop :=
  m_conversation_id m = conversation_id
  ∧ m_sender_id m ≠ user_id
  ∧ m_deleted_at m = None
  ∧ stored_status s (m_id m) user_id ≠ Some read.

#[global] Instance unread_dec s c u m : Decision (unread s c u m).
Proof. unfold unread. apply _. Defined.

Definition unread_messages (s : Store) (conversation_id user_id : Z)
  : list Message :=
  filter (unread s conversation_id user_id) (messages s).

(** DELETE FROM conversation_participants WHERE id = <primary key of
    the loaded object> *)
Definition delete_participant_row (row : ConversationParticipant) (s : Store)
  : Store :=
  set_conversation_participants
    (filter (λ p, p_id p ≠ p_id row) (conversation_participants s)) s.

(** [add_participant] *)
Definition add_participant (conversation_id user_id : Z) (now : Z) (s : Store)
  : Store * result bool :=
  atomically s (
    already ← is_participant conversation_id user_id s;
    match already with
    | true => Ok (false, s)
    | false =>
        let participant :=
          mkConversationParticipant
            (next_id (p_id <$> conversation_participants s))
            conversation_id user_id now None None in
        s ← insert_participant participant s;
        Ok (true, s)
    end).

(** [remove_participant] *)
Definition remove_participant (conversation_id user_id : Z) (s : Store)
  : Store * result bool :=
  atomically s (
    participant ← scalar_one_or_none
                    (filter (λ p, p_conversation_id p = conversation_id
                                  ∧ p_user_id p = user_id)
                            (conversation_participants s));
    match participant with
    | None => Ok (false, s)
    | Some participant => Ok (true, delete_participant_row participant s)
    end).

(** Every participant row belongs to a conversation of the table (the
    foreign key [conversation_participants.conversation_id]). *)
Definition participant_has_conversation (s : Store) : Prop :=
  ∀ p, p ∈ conversation_participants s →
       conversation_exists s (p_conversation_id p).

(** [unique_conversation_participant] holds of the table. *)
Definition unique_conversation_participant (s : Store) : Prop :=
  NoDup ((λ p, (p_conversation_id p, p_user_id p))
           <$> conversation_participants s).

End ChatService.

(** ** [main.py]: accounts *)

Module Accounts.
Import Models.

(** The response model [UserResponse]. *)
Record UserResponse : Type := mkUserResponse {
  id : Z;
  username_ : string;
  email_ : string;
  created_at : Z
}.

Definition response_of (u : User) : UserResponse :=
  mkUserResponse (user_id_ u) (username u) (email u) (user_created_at u).

Section Auth.
(** [pwd_context.hash], which draws a salt, [pwd_context.verify], and
    [create_access_token] applied to [{"sub": id}]. *)
Variable get_password_hash : string → string → string.
Variable verify_password : string → string → bool.
Variable create_access_token : Z → string.

(** The route [register] (POST /api/register); [salt] is what the
    hash draws. *)
Definition register (username_given email_given password salt : string)
    (now : Z) (db : Session) : result (UserResponse * Session) :=
  match first (filter (λ u, username u = username_given
                            ∨ email u = email_given) (users db)) with
  | Some _ => Raise (HTTPException 400)
  | None =>
      let hashed_password := get_password_hash salt password in
      let db_user :=
        mkUser (next_id (user_id_ <$> users db)) username_given email_given
               hashed_password now in
      Ok (response_of db_user,
          mkSession (users db ++ [db_user]) (chats db) (chat_participants db))
  end.

(** The route [login] (POST /api/login): the [access_token] and the
    [user] of the answer; its [token_type] is the constant "bearer". *)
Definition login (username_given password : string) (db : Session)
  : result (string * UserResponse) :=
  match first (filter (λ u, username u = username_given) (users db)) with
  | None => Raise (HTTPException 401)
  | Some db_user =>
      if verify_password password (password_hash db_user)
      then Ok (create_access_token (user_id_ db_user), response_of db_user)
      else Raise (HTTPException 401)
  end.

End Auth.

(** The route [get_users] (GET /api/users). *)
Definition get_users (db : Session) : list UserResponse :=
  response_of <$> users db.

(** User names and e-mail addresses are unique in the table. *)
Definition unique_accounts (db : Session) : Prop :=
  NoDup (username <$> users db) ∧ NoDup (email <$> users db)
  ∧ NoDup (user_id_ <$> users db).

End Accounts.

(** ** [main.py]: messages over HTTP and over the socket *)

Module Endpoint.
Import Models ConnectionManager.

(** [models.Message] *)
Record Message : Type := mkMessage {
  message_id_ : Z;
  message_chat_id : Z;
  message_sender_id : Z;
  message_content : string;
  message_created_at : Z
}.

(** The session [db] with the table [messages] beside the tables of
    [Models.Session]. *)
Record Database : Type := mkDatabase {
  session : Session;
  messages : list Message
}.

(** The response model [MessageResponse]. *)
Record MessageResponse : Type := mkMessageResponse {
  id : Z;
  chat_id : Z;
  sender_id : Z;
  sender_username : string;
  content : string;
  created_at : Z
}.

(** The JSON objects the server sends.  [chatId] and [messageId] echo
    what the frame held, [None] when it held no such key. *)
Inductive Event : Type :=
| message_event (chatId : Z) (id sender_id : Z)
    (sender_username content : string) (created_at : Z)
| typing_event (chatId : option Z) (userId : Z) (username : string)
    (isTyping : bool)
| read_event (chatId messageId : option Z) (userId : Z)
| error_event (message : string).

(** A frame [data] as [receive_json] returns it, read through
    [data.get]: a key that is absent gives [None]; the values have the
    JSON types of the protocol. *)
Record Frame : Type := mkFrame {
  type : option string;
  chatId : option Z;
  frame_content : option string;
  isTyping : option bool;
  messageId : option Z
}.

(** How the stream of frames ends: [receive_json] raises
    [WebSocketDisconnect], or something else. *)
Inductive Ending : Type := ClientDisconnect | ReceiveError.

(** How a call of the endpoint ends: the socket was closed with a
    code before it was registered, the handler ran to its end, or an
    exception left the handler. *)
Inductive Closing : Type :=
| Rejected (code : Z) (reason : string)
| Finished
| Escaped (e : exn).

Section Handlers.
Variable accept : WebSocket → bool.
Variable send_json : list (Send Event) → WebSocket → Event → bool.
(** [jwt.decode]: [None] for [PyJWTError], else [payload.get("sub")]. *)
Variable decode : string → option (option Z).

(** The row of [user_id] in [chat_id], if any.  A [chat_id] of [None]
    compares against NULL and matches no row. *)
Definition participant_row (db : Database) (chat_id : option Z) (user_id : Z)
  : option ChatParticipant :=
  match chat_id with
  | Some chat_id =>
      first (filter (λ p, cp_chat_id p = chat_id ∧ cp_user_id p = user_id)
                    (chat_participants (session db)))
  | None => None
  end.

(** [db.add(Message(...)); db.commit(); db.refresh(db_message)] *)
Definition add_message (chat_id sender_id : Z) (content : string) (now : Z)
    (db : Database) : Message * Database :=
  let db_message :=
    mkMessage (next_id (message_id_ <$> messages db)) chat_id sender_id
              content now in
  (db_message, mkDatabase (session db) (messages db ++ [db_message])).

(** [manager.send_to_chat] on a [chat_id] read from a frame. *)
Definition broadcast (chat_id : option Z) (message : Event) (db : Database)
    (exclude_user_id : option Z) (w : World Event) : World Event :=
  match chat_id with
  | Some chat_id =>
      send_to_chat send_json chat_id message (session db) exclude_user_id w
  | None => w
  end.

(** The route [send_message] (POST /api/chats/{chat_id}/messages). *)
Definition send_message (chat_id : Z) (content : string) (current_user : User)
    (now : Z) (st : Database * World Event)
  : result (MessageResponse * (Database * World Event)) :=
  let '(db, w) := st in
  match participant_row db (Some chat_id) (user_id_ current_user) with
  | None => Raise (HTTPException 403)
  | Some _ =>
      let '(db_message, db) :=
        add_message chat_id (user_id_ current_user) content now db in
      let w :=
        broadcast (Some chat_id)
          (message_event chat_id (message_id_ db_message)
             (user_id_ current_user) (username current_user)
             (message_content db_message) (message_created_at db_message))
          db None w in
      Ok (mkMessageResponse (message_id_ db_message)
            (message_chat_id db_message) (message_sender_id db_message)
            (username current_user) (message_content db_message)
            (message_created_at db_message),
          (db, w))
  end.

(** [await websocket.send_json(message)] outside any [try]. *)
Definition send_direct (websocket : WebSocket) (message : Event)
    (w : World Event) : World Event * option exn :=
  let ok := send_json (wire w) websocket message in
  (mkWorld (active_connections w)
           (wire w ++ [mkSend websocket message ok]),
   if ok then None else Some TransportError).

(** One turn of the loop of [websocket_endpoint] on the frame [data]:
    the state it leaves, and the exception it raised, if any. *)
Definition handle_frame (websocket : WebSocket) (user : User) (data : Frame)
    (now : Z) (st : Database * World Event)
  : (Database * World Event) * option exn :=
  let '(db, w) := st in
  let user_id := user_id_ user in
  let message_type := type data in
  if decide (message_type = Some "message") then
    let chat_id := chatId data in
    let content := frame_content data in
    match participant_row db chat_id user_id, chat_id with
    | Some _, Some chat_id =>
        match content with
        | Some content =>
            let '(db_message, db) :=
              add_message chat_id user_id content now db in
            let w :=
              broadcast (Some chat_id)
                (message_event chat_id (message_id_ db_message) user_id
                   (username user) content (message_created_at db_message))
                db None w in
            ((db, w), None)
        | None => ((db, w), Some IntegrityError)
        end
    | _, _ =>
        let '(w, e) :=
          send_direct websocket
            (error_event "You are not a participant in this chat") w in
        ((db, w), e)
    end
  else if decide (message_type = Some "typing") then
    let chat_id := chatId data in
    let is_typing := default false (isTyping data) in
    ((db, broadcast chat_id
            (typing_event chat_id user_id (username user) is_typing)
            db (Some user_id) w), None)
  else if decide (message_type = Some "read") then
    let chat_id := chatId data in
    let message_id := messageId data in
    ((db, broadcast chat_id (read_event chat_id message_id user_id)
            db (Some user_id) w), None)
  else ((db, w), None).

(** The loop: frames are handled until one raises or the stream ends. *)
Fixpoint receive_loop (websocket : WebSocket) (user : User)
    (frames : list (Frame * Z)) (ending : Ending)
    (st : Database * World Event) : (Database * World Event) * option exn :=
  match frames with
  | [] => (st, match ending with
               | ClientDisconnect => None
               | ReceiveError => Some TransportError
               end)
  | (data, now) :: frames =>
      match handle_frame websocket user data now st with
      | (st, None) => receive_loop websocket user frames ending st
      | (st, Some e) => (st, Some e)
      end
  end.

(** [manager.disconnect(websocket, user_id)] in an [except] clause. *)
Definition unregister (websocket : WebSocket) (user_id : Z)
    (st : Database * World Event) : (Database * World Event) * Closing :=
  match disconnect websocket user_id st.2 with
  | Ok w => ((st.1, w), Finished)
  | Raise e => (st, Escaped e)
  end.

(** [websocket_endpoint]: [frames] are the frames the client sends,
    each with the time at which it is handled. *)
Definition websocket_endpoint (websocket : WebSocket) (token : string)
    (frames : list (Frame * Z)) (ending : Ending)
    (st : Database * World Event) : (Database * World Event) * Closing :=
  match decode token with
  | None => (st, Rejected 4001 "Invalid token")
  | Some None => (st, Rejected 4001 "Invalid token")
  | Some (Some user_id) =>
      match first (filter (λ u, user_id_ u = user_id)
                          (users (session st.1))) with
      | None => (st, Rejected 4001 "User not found")
      | Some user =>
          match connect accept websocket user_id st.2 with
          | Raise _ => unregister websocket user_id st
          | Ok w =>
              let '(st, _) :=
                receive_loop websocket user frames ending (st.1, w) in
              unregister websocket user_id st
          end
      end
  end.

End Handlers.

End Endpoint.
(** ** [utils/helpers.py] *)

Module Helpers.

Section Str.
(** A [str] is the list of its characters; [full_stop] is ["."]. *)
Context {char : Type}.
Variable full_stop : char.

(** The slice [s[:stop]]: a negative [stop] counts from the end. *)
Definition slice_to (stop : Z) (s : list char) : list char :=
  if decide (0 ≤ stop) then take (Z.to_nat stop) s
  else take (Z.to_nat (Z.of_nat (length s) + stop)) s.

(** [truncate_string] *)
Definition truncate_string (s : list char) (max_length : Z) : list char :=
  if decide (Z.of_nat (length s) ≤ max_length) then s
  else slice_to (max_length - 3) s ++ [full_stop; full_stop; full_stop].

End Str.

End Helpers.

(** ** Scenarios *)

Module Scenarios.

(** *** [main.py] *)

Section MainScenarios.
Import Models ConnectionManager Main.

(** A manager with two users: user 1 on sockets 10 and 11, user 3 on
    socket 30. *)
Definition two_users : World string :=
  mkWorld (<[1 := [10; 11]%nat]> (<[3 := [30%nat]]> ∅)) [].

(** Users 1 and 2 are the participants of chat 7. *)
Definition chat7 : Session :=
  mkSession [] [mkChat 7 "team" 0]
    [mkChatParticipant 1 7 1 0; mkChatParticipant 2 7 2 0].

(** A transport on which every call to socket 10 fails. *)
Definition socket10_down (_ : list (Send string)) (ws : WebSocket) (_ : string)
  : bool :=
  bool_decide (ws ≠ 10%nat).

(** Three users without any chat. *)
Definition alice : User := mkUser 1 "alice" "alice@example.org" "" 0.
Definition bob : User := mkUser 2 "bob" "bob@example.org" "" 0.
Definition carol : User := mkUser 3 "carol" "carol@example.org" "" 0.

Definition three_users : Session := mkSession [alice; bob; carol] [] [].

(** The three in one chat, as the route [create_chat] makes it. *)
Definition with_group_chat : Session :=
  (create_chat "team" [1; 2; 3] 10 three_users).2.

End MainScenarios.

(** *** The services *)

Section ServiceScenarios.
Import Schema MessageService.

(** Alice (1) and Bob (2) in the direct conversation 1. *)
Definition two_in_conversation : Store :=
  mkStore [mkUser 1 "alice" None; mkUser 2 "bob" None]
          [mkConversation 1 direct None None 0]
          [mkConversationParticipant 1 1 1 0 None None;
           mkConversationParticipant 2 1 2 0 None None]
          [] [] [] [] [] ∅.

(** Alice has sent "hi". *)
Definition hi_sent : Store :=
  (create_message 1 1 "hi" text None None 100 two_in_conversation).1.

Definition hi : Message :=
  mkMessage 1 1 1 "hi" text 100 None None None 1 None.
Definition hello : Message :=
  mkMessage 1 1 1 "hello" text 100 (Some 200) None (Some 200) 2 None.

Definition hi_edited : Store := (update_message 1 1 "hello" 200 hi_sent).1.

(** Conversation 1 of Alice (1) and Bob (2): Bob sent messages 1 to 3
    and a fourth that he deleted, Alice sent message 5.  For Alice,
    message 1 has no status row, message 2 is "sent", message 3 is
    "delivered". *)
Definition inbox : Store :=
  mkStore [mkUser 1 "alice" None; mkUser 2 "bob" None]
          [mkConversation 1 direct None None 0]
          [mkConversationParticipant 1 1 1 0 None None;
           mkConversationParticipant 2 1 2 0 None None]
          [mkMessage 1 1 2 "a" text 10 None None None 1 None;
           mkMessage 2 1 2 "b" text 20 None None None 1 None;
           mkMessage 3 1 2 "c" text 30 None None None 1 None;
           mkMessage 4 1 2 "d" text 40 None (Some 45) None 1 None;
           mkMessage 5 1 1 "e" text 50 None None None 1 None]
          []
          [mkMessageStatus 1 1 2 sent 10;
           mkMessageStatus 2 2 2 sent 20;
           mkMessageStatus 3 2 1 sent 21;
           mkMessageStatus 4 3 2 sent 30;
           mkMessageStatus 5 3 1 delivered 31;
           mkMessageStatus 6 4 2 sent 40;
           mkMessageStatus 7 5 1 sent 50]
          [] [] ∅.

(** Alice, Bob and Carol in one conversation that is typed "direct". *)
Definition group_of_three : Store :=
  mkStore [mkUser 1 "alice" None; mkUser 2 "bob" None; mkUser 3 "carol" None]
          [mkConversation 1 direct None None 0]
          [mkConversationParticipant 1 1 1 0 None None;
           mkConversationParticipant 2 1 2 0 None None;
           mkConversationParticipant 3 1 3 0 None None]
          [] [] [] [] [] ∅.

End ServiceScenarios.

(** *** Further scenarios *)

Section RegistryScenarios.
Import Models ConnectionManager.

(** [two_users] after user 1 opened socket 12. *)
Definition third_socket : World string :=
  mkWorld (<[1 := [10; 11; 12]%nat]> (<[3 := [30%nat]]> ∅)) [].

(** [two_users] after user 1 closed socket 10. *)
Definition socket10_closed : World string :=
  mkWorld (<[1 := [11%nat]]> (<[3 := [30%nat]]> ∅)) [].

End RegistryScenarios.

Section ChatScenarios.
Import Models Main.

(** [three_users] after alice asked for her direct chat with bob. *)
Definition alice_and_bob : Session :=
  mkSession [alice; bob; carol]
    [mkChat 1 "Chat: alice & bob" 20]
    [mkChatParticipant 1 1 1 20; mkChatParticipant 2 1 2 20].

End ChatScenarios.

Section ReactionScenarios.
Import Schema MessageService.

(** [hi_sent] after Bob reacted to "hi". *)
Definition hi_liked : Store := (add_reaction 1 2 "+1" 300 hi_sent).1.

End ReactionScenarios.

Section ConversationScenarios.
Import Schema ChatService.

(** Alice (1) and Bob (2) without any conversation. *)
Definition two_strangers : Store :=
  mkStore [mkUser 1 "alice" None; mkUser 2 "bob" None]
          [] [] [] [] [] [] [] ∅.

(** A group that so far has Alice only. *)
Definition alice_alone : Store :=
  mkStore [mkUser 1 "alice" None; mkUser 2 "bob" None]
          [mkConversation 1 group (Some "team") None 0]
          [mkConversationParticipant 1 1 1 0 None None]
          [] [] [] [] [] ∅.

(** [alice_alone] after Bob was added. *)
Definition alice_with_bob : Store := (add_participant 1 2 60 alice_alone).1.

End ConversationScenarios.

Section EndpointScenarios.
Import Models ConnectionManager Endpoint.

(** alice, bob and carol; chat 7 has alice and bob; nothing was said
    yet. *)
Definition office : Database :=
  mkDatabase
    (mkSession [alice; bob; carol] [mkChat 7 "team" 0]
       [mkChatParticipant 1 7 1 0; mkChatParticipant 2 7 2 0])
    [].

(** alice on sockets 10 and 11, carol on socket 30. *)
Definition lobby : World Event :=
  mkWorld (<[1 := [10; 11]%nat]> (<[3 := [30%nat]]> ∅)) [].

(** A transport on which every send succeeds. *)
Definition all_up (_ : list (Send Event)) (_ : WebSocket) (_ : Event) : bool :=
  true.

(** The only valid token, carol's. *)
Definition carol_only (token : string) : option (option Z) :=
  if decide (token = "carol") then Some (Some 3) else None.

(** carol is typing in chat 7. *)
Definition typing_in_7 : Frame :=
  mkFrame (Some "typing") (Some 7) None (Some true) None.

End EndpointScenarios.

End Scenarios.

(** * Theorems *)

(** ** The connection registry and the fan-out *)

Module RegistryTheory.
Import Models ConnectionManager Scenarios.

Section Facts.
Context {Message : Type}.
Variable accept : WebSocket → bool.
Variable send_json : list (Send Message) → WebSocket → Message → bool.

Abbreviation World := (World Message).
Abbreviation send_to_user := (send_to_user send_json).
Abbreviation send_to_chat := (send_to_chat send_json).
Abbreviation connect := (connect accept).

(** The loop over a user's connections calls [send_json] once per
    connection, in order, and leaves the dictionary alone. *)
Lemma send_loop (message : Message) (conns : list WebSocket) (w : World) :
  let w' := foldl (send_one send_json message) w conns in
  active_connections w' = active_connections w
  ∧ ∃ new, wire w' = wire w ++ new
           ∧ send_to <$> new = conns
           ∧ Forall (λ s, send_payload s = message) new.
Proof.
  revert w. induction conns as [|c conns IH]; intros w; simpl.
  - split; [done|]. exists []. by rewrite app_nil_r.
  - destruct (IH (send_one send_json message w c)) as (Hac & new & Hw & Hto & Hpl).
    split; [by rewrite Hac|].
    eexists (_ :: new). rewrite Hw. simpl wire. rewrite <- app_assoc.
    split; [done|]. split; [by rewrite fmap_cons, Hto|]. by constructor.
Qed.

Lemma send_to_user_calls (user_id : Z) (message : Message) (w : World) :
  let w' := send_to_user user_id message w in
  active_connections w' = active_connections w
  ∧ ∃ new, wire w' = wire w ++ new
           ∧ send_to <$> new = live w user_id
           ∧ Forall (λ s, send_payload s = message) new.
Proof.
  unfold ConnectionManager.send_to_user, live.
  destruct (active_connections w !! user_id) as [conns|] eqn:E; simpl.
  - apply send_loop.
  - split; [done|]. exists []. by rewrite app_nil_r.
Qed.

Lemma live_same (w w' : World) (u : Z) :
  active_connections w' = active_connections w → live w' u = live w u.
Proof. unfold live. by intros ->. Qed.

(** The loop of [send_to_chat] over any list of participant rows. *)
Lemma fanout_loop (message : Message) (exclude_user_id : option Z)
    (ps : list ChatParticipant) (w : World) :
  let w' := foldl (λ w participant,
               if decide (Some (cp_user_id participant) ≠ exclude_user_id)
               then send_to_user (cp_user_id participant) message w
               else w) w ps in
  active_connections w' = active_connections w
  ∧ ∃ new, wire w' = wire w ++ new
      ∧ (∀ s, s ∈ new →
           send_payload s = message
           ∧ ∃ p, p ∈ ps ∧ Some (cp_user_id p) ≠ exclude_user_id
                  ∧ send_to s ∈ live w (cp_user_id p))
      ∧ (∀ p ws, p ∈ ps → Some (cp_user_id p) ≠ exclude_user_id →
           ws ∈ live w (cp_user_id p) →
           ∃ s, s ∈ new ∧ send_to s = ws ∧ send_payload s = message).
Proof.
  revert w. induction ps as [|p ps IH]; intros w; simpl.
  - split; [done|]. exists []. rewrite app_nil_r. split; [done|].
    split; intros; exfalso; eapply not_elem_of_nil; eauto.
  - set (w1 := if decide (Some (cp_user_id p) ≠ exclude_user_id)
               then send_to_user (cp_user_id p) message w else w).
    assert (active_connections w1 = active_connections w
            ∧ ∃ new1, wire w1 = wire w ++ new1
                ∧ (∀ s, s ∈ new1 → send_payload s = message
                     ∧ Some (cp_user_id p) ≠ exclude_user_id
                     ∧ send_to s ∈ live w (cp_user_id p))
                ∧ (Some (cp_user_id p) ≠ exclude_user_id →
                   ∀ ws, ws ∈ live w (cp_user_id p) →
                   ∃ s, s ∈ new1 ∧ send_to s = ws ∧ send_payload s = message))
      as (Hac1 & new1 & Hw1 & Hsnd1 & Hrcv1).
    { subst w1. destruct (decide (Some (cp_user_id p) ≠ exclude_user_id)) as [Hne|He].
      - destruct (send_to_user_calls (cp_user_id p) message w)
          as (Hac & new & Hw & Hto & Hpl).
        split; [done|]. exists new. split; [done|]. split.
        + intros s Hs. split; [by eapply Forall_forall in Hpl|].
          split; [done|]. rewrite <- Hto. by apply list_elem_of_fmap_2.
        + intros _ ws Hws. rewrite <- Hto in Hws.
          apply list_elem_of_fmap in Hws as (s & -> & Hs).
          exists s. split; [done|]. split; [done|].
          by eapply Forall_forall in Hpl.
      - split; [done|]. exists []. rewrite app_nil_r. split; [done|]. split.
        + intros s Hs. exfalso. by eapply not_elem_of_nil.
        + intros Hne. done. }
    destruct (IH w1) as (Hac & new & Hw & Hsnd & Hrcv).
    split; [by rewrite Hac|].
    exists (new1 ++ new). rewrite Hw, Hw1, <- app_assoc.
    split; [done|]. split.
    + intros s Hs. apply elem_of_app in Hs as [Hs|Hs].
      * destruct (Hsnd1 s Hs) as (? & ? & ?). split; [done|].
        exists p. split; [by left|done].
      * destruct (Hsnd s Hs) as (? & q & Hq & ? & Hin). split; [done|].
        exists q. split; [by right|]. split; [done|].
        by rewrite <- (live_same w w1).
    + intros q ws Hq Hne Hws. apply elem_of_cons in Hq as [->|Hq].
      * destruct (Hrcv1 Hne ws Hws) as (s & ? & ? & ?).
        exists s. split; [apply elem_of_app; by left|done].
      * destruct (Hrcv q ws Hq Hne) as (s & ? & ? & ?).
        { by rewrite (live_same w w1). }
        exists s. split; [apply elem_of_app; by right|done].
Qed.

(** What a fan-out sends: exactly to the live connections of the
    participants that are not excluded. *)
Lemma send_to_chat_calls (chat_id : Z) (message : Message) (db : Session)
    (exclude_user_id : option Z) (w : World) :
  let w' := send_to_chat chat_id message db exclude_user_id w in
  active_connections w' = active_connections w
  ∧ ∃ new, wire w' = wire w ++ new
      ∧ (∀ s, s ∈ new →
           send_payload s = message
           ∧ ∃ u, is_participant db chat_id u ∧ Some u ≠ exclude_user_id
                  ∧ send_to s ∈ live w u)
      ∧ (∀ u ws, is_participant db chat_id u → Some u ≠ exclude_user_id →
           ws ∈ live w u →
           ∃ s, s ∈ new ∧ send_to s = ws ∧ send_payload s = message).
Proof.
  unfold ConnectionManager.send_to_chat.
  destruct (fanout_loop message exclude_user_id
              (filter (λ p, cp_chat_id p = chat_id) (chat_participants db)) w)
    as (Hac & new & Hw & Hsnd & Hrcv).
  split; [done|]. exists new. split; [done|]. split.
  - intros s Hs. destruct (Hsnd s Hs) as (? & p & Hp & ? & ?).
    split; [done|]. exists (cp_user_id p). split; [|done].
    by apply list_elem_of_fmap_2.
  - intros u ws Hu Hne Hws.
    apply list_elem_of_fmap in Hu as (p & -> & Hp). by apply (Hrcv p ws).
Qed.

(** C1. Fan-out of an event to a conversation: no connection of a
    user who is not a participant at fan-out time is sent the event,
    and every participant other than the excluded user has the event
    sent to each of their live connections. *)
Theorem send_to_chat_fanout (chat_id : Z) (message : Message) (db : Session)
    (exclude_user_id : option Z) (w : World) (C : Z) :
  ¬ is_participant db chat_id C →
  owns_exclusively w C →
  let w' := send_to_chat chat_id message db exclude_user_id w in
  ∃ new, wire w' = wire w ++ new
    ∧ (∀ s, s ∈ new → send_to s ∉ live w C)
    ∧ (∀ u ws, is_participant db chat_id u → Some u ≠ exclude_user_id →
         ws ∈ live w u →
         ∃ s, s ∈ new ∧ send_to s = ws ∧ send_payload s = message).
Proof.
  intros HC Hown w'.
  destruct (send_to_chat_calls chat_id message db exclude_user_id w)
    as (_ & new & Hw & Hsnd & Hrcv).
  exists new. split; [done|]. split; [|done].
  intros s Hs. destruct (Hsnd s Hs) as (_ & u & Hu & _ & Hin).
  apply (Hown u); [|done]. intros ->. contradiction.
Qed.

(** Unregistering for a user who has no entry is a no-op. *)
Lemma disconnect_absent_user (websocket : WebSocket) (user_id : Z) (w : World) :
  active_connections w !! user_id = None →
  disconnect websocket user_id w = Ok w.
Proof. unfold disconnect. by intros ->. Qed.

(** Unregistering a handle that is not in the user's list raises. *)
Lemma list_remove_absent (x : WebSocket) (l : list WebSocket) :
  x ∉ l → list_remove x l = Raise ValueError.
Proof.
  induction l as [|y l IH]; intros Hx; simpl; [done|].
  apply not_elem_of_cons in Hx as [Hne Hx].
  destruct (decide (y = x)); [congruence|]. by rewrite IH.
Qed.

Lemma disconnect_unknown_handle (websocket : WebSocket) (user_id : Z)
    (conns : list WebSocket) (w : World) :
  active_connections w !! user_id = Some conns →
  websocket ∉ conns →
  disconnect websocket user_id w = Raise ValueError.
Proof.
  intros E Hx. unfold disconnect. rewrite E.
  by rewrite (list_remove_absent _ _ Hx).
Qed.

(** C7 (as the code has it). A failed [send_json] is swallowed: the
    dictionary is left as it was, so the failing connection stays
    registered; every live connection of the user is still called, in
    order, whatever the earlier calls did; and a fan-out still reaches
    every connection of every other participant. *)
Theorem send_failure_swallowed (chat_id user_id : Z) (message : Message)
    (db : Session) (exclude_user_id : option Z) (w : World) :
  (let w' := send_to_user user_id message w in
   active_connections w' = active_connections w
   ∧ ∃ new, wire w' = wire w ++ new ∧ send_to <$> new = live w user_id
            ∧ Forall (λ s, send_payload s = message) new)
  ∧ (let w' := send_to_chat chat_id message db exclude_user_id w in
     active_connections w' = active_connections w
     ∧ ∃ new, wire w' = wire w ++ new
        ∧ ∀ u ws, is_participant db chat_id u → Some u ≠ exclude_user_id →
            ws ∈ live w u →
            ∃ s, s ∈ new ∧ send_to s = ws ∧ send_payload s = message).
Proof.
  split.
  - apply send_to_user_calls.
  - destruct (send_to_chat_calls chat_id message db exclude_user_id w)
      as (Hac & new & Hw & _ & Hrcv).
    split; [done|]. by exists new.
Qed.

Lemma connect_no_empty_entry (websocket : WebSocket) (user_id : Z) (w w' : World) :
  no_empty_entry w → connect websocket user_id w = Ok w' → no_empty_entry w'.
Proof.
  unfold ConnectionManager.connect, no_empty_entry.
  intros Hinv. destruct (accept websocket); [|done]. intros [= <-]. simpl.
  intros u conns. destruct (decide (u = user_id)) as [->|Hne].
  - rewrite lookup_insert_eq. intros [= <-] Hnil.
    by apply app_eq_nil in Hnil as [_ ?].
  - rewrite lookup_insert_ne by done.
    destruct (active_connections w !! user_id) eqn:E.
    + apply Hinv.
    + rewrite lookup_insert_ne by done. apply Hinv.
Qed.

Lemma disconnect_no_empty_entry (websocket : WebSocket) (user_id : Z)
    (w w' : World) :
  no_empty_entry w → disconnect websocket user_id w = Ok w' →
  no_empty_entry w'.
Proof.
  unfold disconnect, no_empty_entry. intros Hinv.
  destruct (active_connections w !! user_id) as [conns|] eqn:E.
  - destruct (list_remove websocket conns) as [[|c conns']|] eqn:R; simpl;
      [| |done]; intros [= <-]; simpl; intros u l.
    + destruct (decide (u = user_id)) as [->|Hne].
      * by rewrite lookup_delete_eq.
      * rewrite lookup_delete_ne by done. apply Hinv.
    + destruct (decide (u = user_id)) as [->|Hne].
      * rewrite lookup_insert_eq. by intros [= <-].
      * rewrite lookup_insert_ne by done. apply Hinv.
  - intros [= <-]. apply Hinv.
Qed.

Lemma run_no_empty_entry (ops : list (op)) (w w' : World) :
  no_empty_entry w → run accept ops w = Ok w' → no_empty_entry w'.
Proof.
  revert w. induction ops as [|o ops IH]; intros w Hinv; simpl.
  - by intros [= <-].
  - destruct (step accept o w) as [w1|] eqn:E; simpl; [|done].
    apply IH. destruct o; simpl in E.
    + by eapply connect_no_empty_entry.
    + by eapply disconnect_no_empty_entry.
Qed.

(** C10. After any sequence of successful [connect] and [disconnect]
    calls on a fresh manager every key of [active_connections] holds a
    non-empty list; disconnecting the last connection of a user
    deletes the user's key; and [send_to_user] for a user without live
    connections calls no connection and changes nothing. *)
Theorem registry_entries_non_empty (ops : list op) (w : World) :
  run accept ops init = Ok w →
  no_empty_entry w
  ∧ (∀ u ws, live w u = [ws] →
       ∃ w', disconnect ws u w = Ok w' ∧ active_connections w' !! u = None)
  ∧ (∀ u message, live w u = [] →
       active_connections w !! u = None ∧ send_to_user u message w = w).
Proof.
  intros Hrun.
  assert (Hinv : no_empty_entry w).
  { eapply run_no_empty_entry; [|done]. intros u conns. simpl.
    by rewrite lookup_empty. }
  split; [done|]. split.
  - intros u ws Hl. unfold live in Hl. unfold disconnect.
    destruct (active_connections w !! u) as [conns|] eqn:E; simpl in Hl; [|done].
    subst conns. simpl. rewrite decide_True by done. simpl.
    eexists. split; [done|]. simpl. apply lookup_delete_eq.
  - intros u message Hl. unfold live in Hl.
    unfold ConnectionManager.send_to_user.
    destruct (active_connections w !! u) as [conns|] eqn:E; simpl in Hl; [|done].
    subst conns. by apply Hinv in E.
Qed.

End Facts.

(** *** Concrete runs *)

Lemma send_to_chat_fanout_witness :
  ∃ new,
    wire (send_to_chat socket10_down 7 "hi" chat7 None two_users)
      = wire two_users ++ new
    ∧ (∀ s, s ∈ new → send_to s ∉ live two_users 3)
    ∧ (∀ u ws, is_participant chat7 7 u → Some u ≠ None →
         ws ∈ live two_users u →
         ∃ s, s ∈ new ∧ send_to s = ws ∧ send_payload s = "hi").
Proof.
  apply (send_to_chat_fanout socket10_down 7 "hi" chat7 None two_users 3).
  - vm_compute. intros H. repeat (apply elem_of_cons in H as [H|H]; [done|]).
    by apply not_elem_of_nil in H.
  - intros u ws Hne Hin Hc. unfold live, two_users in *. simpl in *.
    rewrite lookup_insert_ne, lookup_insert_eq in Hc by done. simpl in Hc.
    apply list_elem_of_singleton in Hc as ->.
    destruct (decide (u = 1)) as [->|H1].
    + rewrite lookup_insert_eq in Hin. simpl in Hin.
      repeat (apply elem_of_cons in Hin as [Hin|Hin]; [done|]).
      by apply not_elem_of_nil in Hin.
    + rewrite !lookup_insert_ne, lookup_empty in Hin by done.
      by apply not_elem_of_nil in Hin.
Defined.

(** C6. With user 1 on sockets 10 and 11, unregistering socket 10 a
    second time is not a no-op: [list.remove] raises [ValueError].
    So does unregistering socket 12, which never was registered. *)
Theorem disconnect_twice_raises :
  (∃ w1 : World string,
     disconnect 10%nat 1 two_users = Ok w1
     ∧ live w1 1 = [11%nat]
     ∧ disconnect 10%nat 1 w1 = Raise ValueError)
  ∧ disconnect 12%nat 1 two_users = Raise ValueError.
Proof.
  split; [|reflexivity].
  eexists. split; [reflexivity|]. split; reflexivity.
Qed.

(** C7, refuted as stated: the send to socket 10 fails and socket 10
    is still registered afterwards. *)
Lemma failed_connection_stays_registered :
  wire (send_to_user socket10_down 1 "hi" two_users)
    = [mkSend 10%nat "hi" false; mkSend 11%nat "hi" true]
  ∧ 10%nat ∈ live (send_to_user socket10_down 1 "hi" two_users) 1.
Proof. split; [reflexivity|]. vm_compute. by left. Qed.

Lemma registry_entries_non_empty_witness :
  let ops := [Connect 10%nat 1; Connect 11%nat 1; Disconnect 10%nat 1] in
  let w := mkWorld (Message := string) {[ 1 := [11%nat] ]} [] in
  no_empty_entry w
  ∧ (∀ u ws, live w u = [ws] →
       ∃ w', disconnect ws u w = Ok w' ∧ active_connections w' !! u = None)
  ∧ (∀ u message, live w u = [] →
       active_connections w !! u = None
       ∧ send_to_user socket10_down u message w = w).
Proof.
  apply (registry_entries_non_empty (λ _, true) socket10_down
           [Connect 10%nat 1; Connect 11%nat 1; Disconnect 10%nat 1]).
  reflexivity.
Defined.

End RegistryTheory.

(** ** Lists of rows *)

Module Rows.

Lemma filter_none {A : Type} (P : A → Prop) `{!∀ x, Decision (P x)}
    (l : list A) :
  (∀ x, x ∈ l → ¬ P x) → filter P l = [].
Proof.
  induction l as [|x l IH]; intros Hl; [done|].
  rewrite filter_cons_False by (apply Hl; by left).
  apply IH. intros y Hy. apply Hl. by right.
Qed.

Lemma max_bound (ids : list Z) (x : Z) : x ∈ ids → x ≤ foldr Z.max 0 ids.
Proof.
  induction ids as [|y ids IH]; intros Hx; simpl.
  - by apply not_elem_of_nil in Hx.
  - apply elem_of_cons in Hx as [->|Hx]; [lia|]. specialize (IH Hx). lia.
Qed.

End Rows.

(** ** Direct chats *)

Module DirectChatTheory.
Import Models Main Rows Scenarios.

Lemma models_next_id_fresh (ids : list Z) : Models.next_id ids ∉ ids.
Proof.
  intros H%max_bound. unfold Models.next_id in H. lia.
Qed.

(** Once a direct chat was returned for a pair, asking again returns
    the same chat and changes nothing. *)
Lemma create_or_get_direct_chat_again (contact_id : Z) (current_user : User)
    (now now' : Z) (db db1 : Session) (r : ChatResponse) :
  participants_have_chat db →
  create_or_get_direct_chat contact_id current_user now db = Ok (r, db1) →
  create_or_get_direct_chat contact_id current_user now' db1 = Ok (r, db1).
Proof.
  intros Hfk. unfold create_or_get_direct_chat.
  destruct (existing_direct_chat db (user_id_ current_user) contact_id)
    as [c|] eqn:E.
  { intros [= <- <-]. by rewrite E. }
  destruct (first (filter (λ u, user_id_ u = contact_id) (users db)))
    as [contact_user|]; [|done].
  simpl. intros [= <- <-].
  set (new_id := Models.next_id (chat_id_ <$> chats db)).
  set (db_chat := mkChat new_id _ now).
  match goal with |- context [existing_direct_chat ?d _ _] => set (db1 := d) end.
  assert (Hcount_old : ∀ ch, ch ∈ chats db →
            count_in db1 [user_id_ current_user; contact_id] ch
            = count_in db [user_id_ current_user; contact_id] ch).
  { intros ch Hch. unfold count_in. subst db1. simpl.
    rewrite !filter_app, !length_app.
    assert (chat_id_ ch ≠ new_id) as Hne.
    { intros Heq. apply (models_next_id_fresh (chat_id_ <$> chats db)).
      fold new_id. rewrite <- Heq. by apply list_elem_of_fmap_2. }
    rewrite !filter_cons_False by (simpl; intros [? _]; congruence).
    rewrite filter_nil. simpl. by rewrite !Nat.add_0_r. }
  assert (Hcount_new :
            count_in db1 [user_id_ current_user; contact_id] db_chat = 2).
  { unfold count_in. subst db1. simpl.
    rewrite !filter_app, !length_app.
    rewrite (filter_none _ (chat_participants db)).
    - rewrite !filter_cons_True; [done| |]; simpl; (split; [done|]).
      + apply elem_of_cons; right. apply elem_of_cons; by left.
      + apply elem_of_cons; by left.
    - intros p Hp [Hc _]. apply Hfk in Hp. rewrite Hc in Hp.
      by apply (models_next_id_fresh (chat_id_ <$> chats db)). }
  unfold existing_direct_chat in *. apply head_None in E.
  assert (chats db1 = chats db ++ [db_chat]) as -> by done.
  rewrite filter_app.
  rewrite (filter_none _ (chats db)).
  - rewrite filter_cons_True by exact Hcount_new. done.
  - intros ch Hch Hc. rewrite Hcount_old in Hc by done.
    exact (filter_nil_not_elem_of _ _ ch E Hc Hch).
Qed.

(** C4. After alice, bob and carol were put in one chat, asking for
    the direct chat of alice and bob returns that three-person chat:
    the lookup counts the rows of the two users and never looks at the
    others. *)
Theorem direct_lookup_returns_group_chat :
  create_or_get_direct_chat 2 alice 20 with_group_chat
    = Ok (mkChatResponse 1 "team" 10, with_group_chat)
  ∧ participant_ids with_group_chat 1 = [1; 2; 3].
Proof. split; reflexivity. Qed.

(** On a store without such a chat the route creates one, and finds
    it again. *)
Example direct_chat_created_once :
  ∃ db1,
    create_or_get_direct_chat 2 alice 20 three_users
      = Ok (mkChatResponse 1 "Chat: alice & bob" 20, db1)
    ∧ participant_ids db1 1 = [1; 2]
    ∧ create_or_get_direct_chat 2 alice 30 db1
      = Ok (mkChatResponse 1 "Chat: alice & bob" 20, db1).
Proof. eexists. split; [reflexivity|]. split; reflexivity. Qed.

End DirectChatTheory.

(** ** The message mutation engine *)

Module MessageTheory.
Import Schema MessageService Rows Scenarios.

Lemma scalar_one_or_none_Some {A : Type} (rows : list A) (row : A) :
  scalar_one_or_none rows = Ok (Some row) ↔ rows = [row].
Proof.
  destruct rows as [|x [|y rows]]; simpl; split; intros H;
    try discriminate; by simplify_eq.
Qed.

Lemma schema_next_id_fresh (ids : list Z) : Schema.next_id ids ∉ ids.
Proof. intros H%max_bound. unfold Schema.next_id in H. lia. Qed.

(** A message returned by [get_message] carries the id asked for. *)
Lemma get_message_id (message_id : Z) (s : Store) (m : Message) :
  get_message message_id s = Ok (Some m) → m_id m = message_id ∧ m ∈ messages s.
Proof.
  unfold get_message. intros H%scalar_one_or_none_Some.
  assert (Hin : m ∈ filter (λ m, m_id m = message_id) (messages s)).
  { rewrite H. by left. }
  by apply list_elem_of_filter in Hin.
Qed.

(** Updating a message by primary key changes exactly the rows found
    under that key. *)
Lemma filter_update_message (id : Z) (set : Message → Message)
    (l : list Message) :
  (∀ m, m_id (set m) = m_id m) →
  filter (λ m, m_id m = id)
         ((λ m, if decide (m_id m = id) then set m else m) <$> l)
  = set <$> filter (λ m, m_id m = id) l.
Proof.
  intros Hset. induction l as [|x l IH]; [done|].
  rewrite fmap_cons, !filter_cons. destruct (decide (m_id x = id)).
  - rewrite decide_True by by rewrite Hset. by rewrite fmap_cons, IH.
  - rewrite decide_False by done. done.
Qed.

(** C3. A successful edit of a message with content [c] and version
    [v] by its sender appends exactly one [MessageVersion] row, which
    records version [v] and content [c], and leaves the live message
    with the new content, version [v + 1] and [edited_at] set. *)
Theorem update_message_history (message_id user_id : Z) (content : string)
    (now : Z) (s s' : Store) (m m' : Message) :
  get_message message_id s = Ok (Some m) →
  update_message message_id user_id content now s = (s', Ok (Some m')) →
  m_sender_id m = user_id
  ∧ (∃ row, message_versions s' = message_versions s ++ [row]
            ∧ mv_message_id row = message_id
            ∧ mv_version row = m_version m
            ∧ mv_content row = m_content m)
  ∧ get_message message_id s' = Ok (Some m')
  ∧ m_content m' = content
  ∧ m_version m' = m_version m + 1
  ∧ m_edited_at m' = Some now.
Proof.
  intros Hget. destruct (get_message_id _ _ _ Hget) as [Hid Hin].
  subst message_id.
  unfold update_message, atomically. rewrite Hget. simpl.
  destruct (decide (m_sender_id m ≠ user_id)) as [Hne|Heq]; [done|].
  apply dec_stable in Heq.
  unfold insert_version. simpl.
  destruct (decide _) as [Hok|]; simpl; [|done].
  intros [= <- <-]. split; [done|]. split.
  { eexists. split; [reflexivity|]. by simpl. }
  split; [|done].
  unfold get_message. simpl. apply scalar_one_or_none_Some.
  unfold get_message in Hget. apply scalar_one_or_none_Some in Hget.
  rewrite filter_update_message by done. by rewrite Hget.
Qed.

(** *** Delivery status *)

Lemma rank_le_read (o : option Status) : (rank o ≤ rank (Some read))%nat.
Proof. destruct o as [[]|]; simpl; lia. Qed.

Lemma NoDup_fmap_elem_inj {A B : Type} (f : A → B) (l : list A) (x y : A) :
  NoDup (f <$> l) → x ∈ l → y ∈ l → f x = f y → x = y.
Proof.
  induction l as [|z l IH]; intros Hnd Hx Hy Hf.
  - by apply not_elem_of_nil in Hx.
  - rewrite fmap_cons in Hnd. apply NoDup_cons in Hnd as [Hz Hnd].
    apply elem_of_cons in Hx as [->|Hx], Hy as [->|Hy]; [done| | |by apply IH].
    + exfalso. apply Hz. rewrite Hf. by apply list_elem_of_fmap_2.
    + exfalso. apply Hz. rewrite <- Hf. by apply list_elem_of_fmap_2.
Qed.

(** The one row [scalar_one_or_none] found for a (message, user). *)
Lemma scalar_status_row (s : Store) (m u : Z) (status : MessageStatus) :
  scalar_one_or_none (status_rows s m u) = Ok (Some status) →
  status_rows s m u = [status] ∧ status ∈ message_status s
  ∧ ms_message_id status = m ∧ ms_user_id status = u.
Proof.
  intros H%scalar_one_or_none_Some. split; [done|].
  assert (Hin : status ∈ status_rows s m u) by (rewrite H; by left).
  apply list_elem_of_filter in Hin as [[] ?]. done.
Qed.

(** An UPDATE of the status columns keeps every row under its
    (message, user). *)
Lemma status_rows_update (id : Z) (st : Status) (t : Z) (s : Store) (m u : Z) :
  status_rows (update_status_row id st t s) m u
  = (λ r, if decide (ms_id r = id)
          then mkMessageStatus (ms_id r) (ms_message_id r) (ms_user_id r) st t
          else r) <$> status_rows s m u.
Proof.
  unfold status_rows, update_status_row. simpl.
  induction (message_status s) as [|x l IH]; [done|].
  rewrite fmap_cons, !filter_cons.
  destruct (decide (ms_id x = id)); simpl;
    destruct (decide (ms_message_id x = m ∧ ms_user_id x = u)); simpl;
    rewrite IH; try done.
  by rewrite decide_True by done.
  by rewrite decide_False by done.
Qed.

Lemma update_status_row_rank (id : Z) (st : Status) (t : Z) (s : Store) :
  (∀ r, r ∈ message_status s → ms_id r = id →
        (rank (Some (ms_status r)) ≤ rank (Some st))%nat) →
  ∀ m u, (rank (stored_status s m u)
          ≤ rank (stored_status (update_status_row id st t s) m u))%nat.
Proof.
  intros Hid m u. unfold stored_status. rewrite status_rows_update.
  destruct (status_rows s m u) as [|r l] eqn:E; simpl; [lia|].
  assert (Hr : r ∈ message_status s).
  { assert (Hin : r ∈ status_rows s m u) by (rewrite E; by left).
    by apply list_elem_of_filter in Hin as [_ ?]. }
  destruct (decide (ms_id r = id)); simpl; [by apply Hid|done].
Qed.

Lemma insert_status_rows (row : MessageStatus) (s s' : Store) :
  insert_status row s = Ok s' →
  message_status s' = message_status s ++ [row]
  ∧ messages s' = messages s
  ∧ message_reactions s' = message_reactions s
  ∧ message_exists s (ms_message_id row)
  ∧ status_rows s (ms_message_id row) (ms_user_id row) = [].
Proof.
  unfold insert_status. destruct (decide _) as [(Hm & Hu & Hk)|]; [|done].
  intros [= <-]. simpl. repeat (split; [done|]).
  apply filter_none. intros r Hr [Hrm Hru]. apply Hk.
  rewrite <- Hrm, <- Hru.
  by apply (list_elem_of_fmap_2 (λ r, (ms_message_id r, ms_user_id r))).
Qed.

Lemma insert_status_rank (row : MessageStatus) (s s' : Store) :
  insert_status row s = Ok s' →
  ∀ m u, (rank (stored_status s m u) ≤ rank (stored_status s' m u))%nat.
Proof.
  intros (Hrows & _)%insert_status_rows m u.
  unfold stored_status, status_rows. rewrite Hrows, filter_app.
  destruct (filter _ (message_status s)) as [|r l]; simpl; [lia|done].
Qed.

(** [mark_as_delivered] moves no status backwards. *)
Lemma mark_as_delivered_forward (message_id user_id now : Z) (s : Store) :
  message_status_pkey s →
  ∀ m u, (rank (stored_status s m u)
          ≤ rank (stored_status (mark_as_delivered message_id user_id now s).1
                                m u))%nat.
Proof.
  intros Hpk m u. unfold mark_as_delivered, atomically.
  destruct (scalar_one_or_none (status_rows s message_id user_id))
    as [[status|]|] eqn:E; simpl; [| |done].
  - destruct (decide (ms_status status = sent)) as [Hs|]; simpl; [|done].
    apply update_status_row_rank. intros r Hr Hid.
    apply scalar_status_row in E as (_ & Hin & _).
    assert (r = status) as -> by by eapply (NoDup_fmap_elem_inj ms_id).
    rewrite Hs. simpl. lia.
  - destruct (insert_status _ s) as [s'|] eqn:I; simpl; [|done].
    by eapply insert_status_rank.
Qed.

(** [mark_as_read] moves no status backwards. *)
Lemma mark_as_read_forward (message_id user_id now : Z) (s : Store) :
  ∀ m u, (rank (stored_status s m u)
          ≤ rank (stored_status (mark_as_read message_id user_id now s).1
                                m u))%nat.
Proof.
  intros m u. unfold mark_as_read, atomically.
  destruct (scalar_one_or_none (filter _ (messages s)))
    as [[message|]|]; simpl; [| |done]; [|done].
  destruct (decide (m_sender_id message = user_id)); simpl; [done|].
  destruct (scalar_one_or_none (status_rows s message_id user_id))
    as [[status|]|] eqn:E; simpl; [| |done].
  - apply update_status_row_rank. intros r _ _. apply rank_le_read.
  - destruct (insert_status _ s) as [s'|] eqn:I; simpl; [|done].
    by eapply insert_status_rank.
Qed.

(** After a successful [mark_as_read] the pair has one row, "read". *)
Lemma mark_as_read_row (message_id user_id now : Z) (s s1 : Store) :
  mark_as_read message_id user_id now s = (s1, Ok true) →
  ∃ r, status_rows s1 message_id user_id = [r] ∧ ms_status r = read.
Proof.
  unfold mark_as_read, atomically.
  destruct (scalar_one_or_none (filter _ (messages s)))
    as [[message|]|]; simpl; [| |done]; [|done].
  destruct (decide (m_sender_id message = user_id)); simpl; [done|].
  destruct (scalar_one_or_none (status_rows s message_id user_id))
    as [[status|]|] eqn:E; simpl; [| |done].
  - intros [= <-]. apply scalar_status_row in E as (Hrows & _).
    rewrite status_rows_update, Hrows. simpl.
    rewrite decide_True by done. by eexists.
  - destruct (insert_status _ s) as [s'|] eqn:I; simpl; [|done].
    intros [= <-]. apply insert_status_rows in I as (Hrows & _ & _ & _ & Hnone).
    simpl in Hnone. unfold status_rows in *. rewrite Hrows, filter_app, Hnone.
    rewrite filter_cons_True by done. by eexists.
Qed.

(** C2. Delivery status only moves forward on the chain
    sent → delivered → read: neither [mark_as_delivered] nor
    [mark_as_read] lowers the stored status of any (message, user);
    and after a message was marked as read, marking it as delivered
    succeeds and leaves the store, and so the status "read", as it
    was. *)
Theorem status_forward_only (message_id user_id now now' : Z) (s : Store) :
  message_status_pkey s →
  (∀ m u, (rank (stored_status s m u)
           ≤ rank (stored_status
                     (mark_as_delivered message_id user_id now s).1 m u))%nat)
  ∧ (∀ m u, (rank (stored_status s m u)
             ≤ rank (stored_status
                       (mark_as_read message_id user_id now s).1 m u))%nat)
  ∧ (∀ s1, mark_as_read message_id user_id now s = (s1, Ok true) →
       stored_status s1 message_id user_id = Some read
       ∧ mark_as_delivered message_id user_id now' s1 = (s1, Ok true)
       ∧ stored_status (mark_as_delivered message_id user_id now' s1).1
           message_id user_id = Some read).
Proof.
  intros Hpk. split; [by apply mark_as_delivered_forward|].
  split; [by apply mark_as_read_forward|].
  intros s1 (r & Hrows & Hread)%mark_as_read_row.
  assert (Hd : mark_as_delivered message_id user_id now' s1 = (s1, Ok true)).
  { unfold mark_as_delivered, atomically. rewrite Hrows. simpl.
    rewrite decide_False by (rewrite Hread; done). done. }
  rewrite Hd. simpl. unfold stored_status. rewrite Hrows. simpl.
  by rewrite Hread.
Qed.

(** *** Read marks by the sender *)

Lemma mark_as_read_own_message (message_id A now : Z) (s : Store)
    (msg : Message) :
  get_message message_id s = Ok (Some msg) →
  m_sender_id msg = A →
  mark_as_read message_id A now s = (s, Ok false).
Proof.
  unfold get_message. intros Hget Hsender.
  unfold mark_as_read, atomically. rewrite Hget. simpl.
  by rewrite decide_True by done.
Qed.

(** C8. Marking a message as read by its own sender fails: the call
    returns [False] and the store, and with it every [MessageStatus]
    row of the sender for the message, is left as it was. *)
Theorem self_read_rejected (message_id A now : Z) (s : Store) (msg : Message) :
  get_message message_id s = Ok (Some msg) →
  m_sender_id msg = A →
  mark_as_read message_id A now s = (s, Ok false)
  ∧ status_rows (mark_as_read message_id A now s).1 message_id A
    = status_rows s message_id A.
Proof.
  intros Hget Hsender.
  by rewrite (mark_as_read_own_message _ _ _ _ msg Hget Hsender).
Qed.

(** What [create_message] leaves behind when it succeeds. *)
Lemma create_message_rows (chat_id A : Z) (content : string)
    (message_type : MessageType) (reply_to_id file_id : option Z) (now : Z)
    (s s1 : Store) (msg : Message) :
  create_message chat_id A content message_type reply_to_id file_id now s
    = (s1, Ok msg) →
  msg = mkMessage (Schema.next_id (m_id <$> messages s)) chat_id A content
          message_type now None None None default_version reply_to_id
  ∧ messages s1 = messages s ++ [msg]
  ∧ (∃ id, message_status s1
           = message_status s ++ [mkMessageStatus id (m_id msg) A sent now])
  ∧ status_rows s (m_id msg) A = [].
Proof.
  unfold create_message, atomically.
  set (message := mkMessage _ _ _ _ _ _ _ _ _ _ _).
  unfold insert_message. destruct (decide _) as [_|]; simpl; [|done].
  set (s0 := set_messages _ s).
  match goal with
  | |- context [mbind _ ?r] =>
      assert (Hs : (∃ e, r = Raise e)
                   ∨ ∃ s', r = Ok s' ∧ messages s' = messages s0
                           ∧ message_status s' = message_status s0)
  end.
  { destruct file_id as [fid|]; [|right; by eexists].
    destruct (decide (fid ≠ 0)); [|right; by eexists].
    destruct (scalar_one_or_none _) as [[f|]|e]; simpl.
    - right. by eexists.
    - right. by eexists.
    - left. by eexists. }
  destruct Hs as [[e ->]|(s' & -> & Hm & Hst)]; simpl; [done|].
  destruct (insert_status _ s') as [s2|] eqn:I; simpl; [|done].
  intros [= <- <-].
  apply insert_status_rows in I as (Hrows & Hmsgs & _ & _ & Hnone).
  simpl in *. split; [done|]. split; [by rewrite Hmsgs, Hm|].
  split; [eexists; by rewrite Hrows, Hst|].
  unfold status_rows in *. by rewrite Hst in Hnone.
Qed.

(** The sender's row for a message just created is the initial "sent"
    row, and a read mark by the sender leaves it so. *)
Lemma own_status_stays_sent (chat_id A : Z) (content : string)
    (message_type : MessageType) (reply_to_id file_id : option Z)
    (now now' : Z) (s s1 : Store) (msg : Message) :
  create_message chat_id A content message_type reply_to_id file_id now s
    = (s1, Ok msg) →
  mark_as_read (m_id msg) A now' s1 = (s1, Ok false)
  ∧ ∃ r, status_rows s1 (m_id msg) A = [r] ∧ ms_status r = sent.
Proof.
  intros (Hmsg & Hmsgs & (id & Hst) & Hnone)%create_message_rows.
  split.
  - apply (mark_as_read_own_message _ _ _ _ msg); [|by rewrite Hmsg].
    unfold get_message. rewrite Hmsgs, filter_app.
    rewrite (filter_none _ (messages s)).
    + by rewrite filter_cons_True by done.
    + intros m Hm Hid. apply (schema_next_id_fresh (m_id <$> messages s)).
      replace (Schema.next_id _) with (m_id msg) by by rewrite Hmsg.
      rewrite <- Hid. by apply list_elem_of_fmap_2.
  - unfold status_rows in *. rewrite Hst, filter_app, Hnone.
    rewrite filter_cons_True by done. by eexists.
Qed.

(** *** Rows and the messages they belong to *)

Lemma update_status_row_has_message (id : Z) (st : Status) (t : Z) (s : Store) :
  status_has_message s → status_has_message (update_status_row id st t s).
Proof.
  intros Hfk r' Hr'. unfold update_status_row in Hr'. simpl in Hr'.
  apply list_elem_of_fmap in Hr' as (r & -> & Hr).
  specialize (Hfk r Hr). unfold message_exists in *. simpl.
  by destruct (decide (ms_id r = id)).
Qed.

Lemma insert_status_has_message (row : MessageStatus) (s s' : Store) :
  status_has_message s → insert_status row s = Ok s' → status_has_message s'.
Proof.
  intros Hfk (Hrows & Hmsgs & _ & Hex & _)%insert_status_rows r Hr.
  unfold message_exists in *. rewrite Hmsgs. rewrite Hrows in Hr.
  apply elem_of_app in Hr as [Hr|Hr]; [by apply Hfk|].
  by apply list_elem_of_singleton in Hr as ->.
Qed.

Lemma insert_reaction_has_message (row : MessageReaction) (s s' : Store) :
  reaction_has_message s → insert_reaction row s = Ok s' →
  reaction_has_message s'.
Proof.
  intros Hfk. unfold insert_reaction.
  destruct (decide _) as [(Hm & _)|]; [|done]. intros [= <-] r Hr.
  simpl in Hr. unfold message_exists in *. simpl.
  apply elem_of_app in Hr as [Hr|Hr]; [by apply Hfk|].
  by apply list_elem_of_singleton in Hr as ->.
Qed.

Lemma mark_as_delivered_has_message (message_id user_id now : Z) (s : Store) :
  status_has_message s →
  status_has_message (mark_as_delivered message_id user_id now s).1.
Proof.
  intros Hfk. unfold mark_as_delivered, atomically.
  destruct (scalar_one_or_none (status_rows s message_id user_id))
    as [[status|]|]; simpl; [| |done].
  - destruct (decide (ms_status status = sent)); simpl; [|done].
    by apply update_status_row_has_message.
  - destruct (insert_status _ s) as [s'|] eqn:I; simpl; [|done].
    by eapply insert_status_has_message.
Qed.

Lemma add_reaction_has_message (message_id user_id : Z) (emoji : string)
    (now : Z) (s : Store) :
  reaction_has_message s →
  reaction_has_message (add_reaction message_id user_id emoji now s).1.
Proof.
  intros Hfk. unfold add_reaction, atomically.
  destruct (scalar_one_or_none (reaction_rows s message_id user_id emoji))
    as [[existing|]|]; simpl; [done| |done].
  destruct (insert_reaction _ s) as [s'|] eqn:I; simpl; [|done].
  by eapply insert_reaction_has_message.
Qed.

(** C9. Every [MessageStatus] and [MessageReaction] row references a
    message, before and after [mark_as_delivered] and [add_reaction];
    for a message id that no message has, both calls are refused by
    the foreign key and insert nothing. *)
Theorem rows_reference_messages (message_id user_id : Z) (emoji : string)
    (now : Z) (s : Store) :
  status_has_message s →
  reaction_has_message s →
  status_has_message (mark_as_delivered message_id user_id now s).1
  ∧ reaction_has_message (add_reaction message_id user_id emoji now s).1
  ∧ (¬ message_exists s message_id →
       mark_as_delivered message_id user_id now s = (s, Raise IntegrityError)
       ∧ add_reaction message_id user_id emoji now s
         = (s, Raise IntegrityError)).
Proof.
  intros Hst Hre. split; [by apply mark_as_delivered_has_message|].
  split; [by apply add_reaction_has_message|].
  intros Hno. split.
  - unfold mark_as_delivered, atomically.
    assert (status_rows s message_id user_id = []) as ->.
    { apply filter_none. intros r Hr [Hm _]. apply Hno. rewrite <- Hm.
      by apply Hst. }
    simpl. unfold insert_status. simpl.
    by rewrite decide_False by (intros [? _]; done).
  - unfold add_reaction, atomically.
    assert (reaction_rows s message_id user_id emoji = []) as ->.
    { apply filter_none. intros r Hr [Hm _]. apply Hno. rewrite <- Hm.
      by apply Hre. }
    simpl. unfold insert_reaction. simpl.
    by rewrite decide_False by (intros [? _]; done).
Qed.

(** *** Concrete runs *)

Lemma update_message_history_witness :
  m_sender_id hi = 1
  ∧ (∃ row, message_versions hi_edited = message_versions hi_sent ++ [row]
            ∧ mv_message_id row = 1
            ∧ mv_version row = m_version hi
            ∧ mv_content row = m_content hi)
  ∧ get_message 1 hi_edited = Ok (Some hello)
  ∧ m_content hello = "hello"
  ∧ m_version hello = m_version hi + 1
  ∧ m_edited_at hello = Some 200.
Proof.
  apply (update_message_history 1 1 "hello" 200 hi_sent hi_edited hi hello);
    reflexivity.
Defined.

(** Editing "hi" (version 1) to "hello" leaves one [MessageVersion]
    row, (version 1, "hi"), and the message at version 2, "hello". *)
Example hi_to_hello :
  message_versions hi_edited = [mkMessageVersion 1 1 1 "hi" 200]
  ∧ messages hi_edited = [hello].
Proof. split; reflexivity. Qed.

Lemma status_forward_only_witness :
  (∀ m u, (rank (stored_status hi_sent m u)
           ≤ rank (stored_status (mark_as_delivered 1 2 300 hi_sent).1 m u))%nat)
  ∧ (∀ m u, (rank (stored_status hi_sent m u)
             ≤ rank (stored_status (mark_as_read 1 2 300 hi_sent).1 m u))%nat)
  ∧ (∀ s1, mark_as_read 1 2 300 hi_sent = (s1, Ok true) →
       stored_status s1 1 2 = Some read
       ∧ mark_as_delivered 1 2 400 s1 = (s1, Ok true)
       ∧ stored_status (mark_as_delivered 1 2 400 s1).1 1 2 = Some read).
Proof.
  apply (status_forward_only 1 2 300 400 hi_sent).
  vm_compute. apply NoDup_singleton.
Defined.

(** Bob reads "hi", then the delivery receipt arrives: still "read". *)
Example read_then_delivered :
  let s1 := (mark_as_read 1 2 300 hi_sent).1 in
  mark_as_read 1 2 300 hi_sent = (s1, Ok true)
  ∧ stored_status (mark_as_delivered 1 2 400 s1).1 1 2 = Some read.
Proof. split; reflexivity. Qed.

Lemma self_read_rejected_witness :
  mark_as_read 1 1 300 hi_sent = (hi_sent, Ok false)
  ∧ status_rows (mark_as_read 1 1 300 hi_sent).1 1 1 = status_rows hi_sent 1 1.
Proof.
  apply (self_read_rejected 1 1 300 hi_sent hi); reflexivity.
Defined.

(** Alice's only row for her own message is the initial "sent" one. *)
Example own_status_is_sent :
  status_rows (mark_as_read 1 1 300 hi_sent).1 1 1
  = [mkMessageStatus 1 1 1 sent 100].
Proof. reflexivity. Qed.

Lemma rows_reference_messages_witness :
  status_has_message (mark_as_delivered 9 2 300 hi_sent).1
  ∧ reaction_has_message (add_reaction 9 2 "+1" 300 hi_sent).1
  ∧ (¬ message_exists hi_sent 9 →
       mark_as_delivered 9 2 300 hi_sent = (hi_sent, Raise IntegrityError)
       ∧ add_reaction 9 2 "+1" 300 hi_sent = (hi_sent, Raise IntegrityError)).
Proof.
  apply (rows_reference_messages 9 2 "+1" 300 hi_sent).
  - intros r Hr. vm_compute in Hr.
    apply list_elem_of_singleton in Hr as ->. vm_compute. by left.
  - intros r Hr. vm_compute in Hr. by apply not_elem_of_nil in Hr.
Defined.

(** A delivery receipt and a reaction for the message id 9, which no
    message has, are refused and leave the store as it was. *)
Example orphan_rows_refused :
  mark_as_delivered 9 2 300 hi_sent = (hi_sent, Raise IntegrityError)
  ∧ add_reaction 9 2 "+1" 300 hi_sent = (hi_sent, Raise IntegrityError).
Proof. split; reflexivity. Qed.

End MessageTheory.

(** ** Conversations and unread counts *)

Module ChatTheory.
Import Schema ChatService Rows Scenarios.

(** Under [unique_message_user_status] a (message, user) has at most
    one status row. *)
Lemma status_rows_unique (s : Store) (m u : Z) :
  unique_message_user_status s →
  status_rows s m u = [] ∨ ∃ r, status_rows s m u = [r].
Proof.
  unfold unique_message_user_status, status_rows.
  induction (message_status s) as [|x l IH]; intros Hnd; [by left|].
  rewrite fmap_cons in Hnd. apply NoDup_cons in Hnd as [Hx Hnd].
  rewrite filter_cons.
  destruct (decide (ms_message_id x = m ∧ ms_user_id x = u)) as [[Hm Hu]|].
  - right. exists x. f_equal. apply filter_none. intros r Hr [Hrm Hru].
    apply Hx. rewrite Hm, Hu, <- Hrm, <- Hru.
    by apply (list_elem_of_fmap_2 (λ r, (ms_message_id r, ms_user_id r))).
  - by apply IH.
Qed.

(** The joined rows of one message that pass the WHERE clause: one
    when the message is unread, none otherwise. *)
Lemma joined_rows_of_message (s : Store) (conversation_id user_id : Z)
    (m : Message) :
  unique_message_user_status s →
  length (filter
    (λ '(m, status),
       m_conversation_id m = conversation_id
       ∧ m_sender_id m ≠ user_id
       ∧ m_deleted_at m = None
       ∧ not_read status)
    (match status_rows s (m_id m) user_id with
     | [] => [(m, None)]
     | rows => (λ r, (m, Some r)) <$> rows
     end))
  = length (filter (unread s conversation_id user_id) [m]).
Proof.
  intros Huniq. rewrite (filter_cons _ m), filter_nil.
  assert (Hst : stored_status s (m_id m) user_id
                = ms_status <$> head (status_rows s (m_id m) user_id)) by done.
  destruct (status_rows_unique s (m_id m) user_id Huniq) as [E|[r E]];
    rewrite E in *; simpl in Hst; cbv beta iota;
    rewrite ?fmap_cons, ?fmap_nil, filter_cons, filter_nil;
    destruct (decide (unread s conversation_id user_id m)) as [H2|H2];
    destruct (decide _) as [H1|H1]; simpl; try done; exfalso;
    unfold unread in H2; rewrite Hst in H2.
  - apply H1. destruct H2 as (? & ? & ? & _). done.
  - apply H2. destruct H1 as (? & ? & ? & _). done.
  - apply H1. destruct H2 as (? & ? & ? & Hnr).
    repeat (split; [done|]). simpl. congruence.
  - apply H2. destruct H1 as (? & ? & ? & Hnr). simpl in Hnr.
    repeat (split; [done|]). congruence.
Qed.

(** C5. The unread count of a user in a conversation is the number of
    messages of the conversation that somebody else sent, that are not
    soft-deleted, and whose status row for the user is absent or not
    "read". *)
Theorem unread_count_counts_unread (conversation_id user_id : Z) (s : Store) :
  unique_message_user_status s →
  get_unread_count conversation_id user_id s
  = Z.of_nat (length (unread_messages s conversation_id user_id)).
Proof.
  intros Huniq. unfold get_unread_count, unread_messages, outerjoin_status.
  f_equal. induction (messages s) as [|m l IH]; [done|].
  rewrite bind_cons, filter_app, length_app, IH.
  rewrite (joined_rows_of_message s conversation_id user_id m Huniq).
  rewrite (filter_cons _ m l), (filter_cons _ m []), filter_nil.
  by destruct (decide _).
Qed.

(** The lookup of [ChatService] returns only a direct conversation
    whose participants are exactly the two users. *)
Lemma get_direct_conversation_exact (user1_id user2_id : Z) (s : Store)
    (conv : Conversation) :
  get_direct_conversation user1_id user2_id s = Some conv →
  conv ∈ conversations s
  ∧ c_type conv = direct
  ∧ ∀ u, u ∈ (p_user_id <$> participants s conv)
         ↔ u = user1_id ∨ u = user2_id.
Proof.
  unfold get_direct_conversation. intros [Hin Hset]%find_some.
  apply list_elem_of_In, list_elem_of_filter in Hin as [[_ Hty] Hin].
  split; [done|]. split; [done|].
  apply bool_decide_eq_true_1 in Hset. cbv zeta in Hset. intros u.
  rewrite <- (elem_of_list_to_set (C := gset Z)), Hset.
  by rewrite elem_of_union, !elem_of_singleton.
Qed.

(** *** Concrete runs *)

Lemma unread_count_counts_unread_witness :
  get_unread_count 1 1 inbox = Z.of_nat (length (unread_messages inbox 1 1)).
Proof.
  apply (unread_count_counts_unread 1 1 inbox).
  unfold unique_message_user_status. apply (bool_decide_unpack _).
  by vm_compute.
Defined.

(** Three unread messages from Bob and one message of her own: Alice's
    unread count is 3; once she has read message 2 it is 2. *)
Example alice_has_three_unread :
  get_unread_count 1 1 inbox = 3
  ∧ get_unread_count 1 1 (MessageService.mark_as_read 2 1 60 inbox).1 = 2.
Proof. split; reflexivity. Qed.

(** A group of three that contains Alice and Bob is not their direct
    conversation. *)
Example group_is_not_direct :
  get_direct_conversation 1 2 group_of_three = None
  ∧ get_direct_conversation 1 2 inbox
    = Some (mkConversation 1 direct None None 0).
Proof. split; reflexivity. Qed.

End ChatTheory.

(** * Further properties *)

(** ** The connection registry *)

Module RegistryLaws.
Import Models ConnectionManager Scenarios RegistryTheory.

Section Laws.
Context {Message : Type}.
Variable accept : WebSocket → bool.
Variable send_json : list (Send Message) → WebSocket → Message → bool.

Abbreviation World := (World Message).
Abbreviation send_to_user := (send_to_user send_json).
Abbreviation send_to_chat := (send_to_chat send_json).
Abbreviation connect := (connect accept).

(** [list.remove] takes out one occurrence and nothing else. *)
Lemma list_remove_Permutation (x : WebSocket) (l l' : list WebSocket) :
  list_remove x l = Ok l' → l ≡ₚ x :: l'.
Proof.
  revert l'. induction l as [|y l IH]; intros l'; simpl; [done|].
  destruct (decide (y = x)) as [->|Hne]; [by intros [= ->]|].
  destruct (list_remove x l) as [l''|]; simpl; [|done].
  intros [= <-]. rewrite (IH l'') by done. apply Permutation_swap.
Qed.

(** Removing a handle that was appended last, and was not in the list
    before, gives the list back. *)
Lemma list_remove_snoc (x : WebSocket) (l : list WebSocket) :
  x ∉ l → list_remove x (l ++ [x]) = Ok l.
Proof.
  induction l as [|y l IH]; intros Hx; simpl.
  - by rewrite decide_True.
  - apply not_elem_of_cons in Hx as [Hne Hx].
    rewrite decide_False by done. by rewrite IH.
Qed.

(** X1. Registering a socket and unregistering it again gives the
    dictionary back, for a socket that was not yet registered for the
    user. *)
Theorem connect_disconnect_round_trip (websocket : WebSocket) (user_id : Z)
    (w w1 : World) :
  no_empty_entry w →
  websocket ∉ live w user_id →
  connect websocket user_id w = Ok w1 →
  live w1 user_id = live w user_id ++ [websocket]
  ∧ disconnect websocket user_id w1 = Ok w.
Proof.
  intros Hinv Hfresh. unfold ConnectionManager.connect.
  destruct (accept websocket); [|done]. intros [= <-].
  unfold live in *. unfold disconnect. simpl.
  destruct (active_connections w !! user_id) as [conns|] eqn:E; simpl in *.
  - rewrite E. simpl. rewrite !lookup_insert_eq. simpl. split; [done|].
    rewrite (list_remove_snoc _ _ Hfresh). simpl.
    destruct conns as [|c conns]; [by apply Hinv in E|].
    rewrite insert_insert_eq, (insert_id _ _ _ E). by destruct w.
  - rewrite !lookup_insert_eq. simpl. split; [done|].
    rewrite decide_True by done. simpl.
    rewrite insert_insert_eq, delete_insert_id by done. by destruct w.
Qed.

(** X2. Unregistering a socket takes one occurrence of it out of the
    user's list, keeps the other sockets of the user, and leaves every
    other user and the wire alone. *)
Theorem disconnect_removes_one (websocket : WebSocket) (user_id : Z)
    (conns : list WebSocket) (w w' : World) :
  active_connections w !! user_id = Some conns →
  disconnect websocket user_id w = Ok w' →
  conns ≡ₚ websocket :: live w' user_id
  ∧ (∀ u, u ≠ user_id → active_connections w' !! u = active_connections w !! u)
  ∧ wire w' = wire w.
Proof.
  intros E. unfold disconnect, live. rewrite E.
  destruct (list_remove websocket conns) as [conns'|] eqn:R; simpl; [|done].
  apply list_remove_Permutation in R.
  destruct conns' as [|c conns']; intros [= <-]; simpl.
  - rewrite lookup_delete_eq. split; [done|]. split; [|done].
    intros u Hu. by rewrite lookup_delete_ne.
  - rewrite lookup_insert_eq. split; [done|]. split; [|done].
    intros u Hu. by rewrite lookup_insert_ne.
Qed.

(** The loop of [send_to_chat], call by call. *)
Lemma fanout_loop_order (message : Message) (exclude_user_id : option Z)
    (ps : list ChatParticipant) (w : World) :
  let w' := foldl (λ w participant,
               if decide (Some (cp_user_id participant) ≠ exclude_user_id)
               then send_to_user (cp_user_id participant) message w
               else w) w ps in
  ∃ new, wire w' = wire w ++ new
    ∧ send_to <$> new
      = filter (λ p, Some (cp_user_id p) ≠ exclude_user_id) ps
          ≫= (λ p, live w (cp_user_id p))
    ∧ Forall (λ s, send_payload s = message) new.
Proof.
  revert w. induction ps as [|p ps IH]; intros w; simpl.
  - exists []. by rewrite app_nil_r.
  - rewrite filter_cons.
    destruct (decide (Some (cp_user_id p) ≠ exclude_user_id)) as [Hne|He].
    + destruct (send_to_user_calls send_json (cp_user_id p) message w)
        as (Hac & new1 & Hw1 & Hto1 & Hpl1).
      destruct (IH (send_to_user (cp_user_id p) message w))
        as (new & Hw & Hto & Hpl).
      exists (new1 ++ new). rewrite Hw, Hw1, <- app_assoc. split; [done|].
      split; [|by apply Forall_app].
      assert (Hb : ∀ qs : list ChatParticipant,
                qs ≫= (λ q, live (send_to_user (cp_user_id p) message w)
                                 (cp_user_id q))
                = qs ≫= (λ q, live w (cp_user_id q))).
      { induction qs as [|q qs IHq]; [done|].
        by rewrite !bind_cons, IHq, (live_same w _ _ Hac). }
      by rewrite fmap_app, bind_cons, Hto1, Hto, Hb.
    + apply IH.
Qed.

(** X3. A fan-out calls [send_json] once for each live connection of
    each participant row that is not excluded, row after row and, for
    one user, connection after connection; it makes no other call. *)
Theorem send_to_chat_order (chat_id : Z) (message : Message) (db : Session)
    (exclude_user_id : option Z) (w : World) :
  ∃ new,
    wire (send_to_chat chat_id message db exclude_user_id w) = wire w ++ new
    ∧ send_to <$> new
      = filter (λ p, Some (cp_user_id p) ≠ exclude_user_id)
               (filter (λ p, cp_chat_id p = chat_id) (chat_participants db))
          ≫= (λ p, live w (cp_user_id p))
    ∧ Forall (λ s, send_payload s = message) new.
Proof. apply fanout_loop_order. Qed.

(** X4. A fan-out that excludes a user calls none of that user's
    connections. *)
Theorem send_to_chat_skips_excluded (chat_id : Z) (message : Message)
    (db : Session) (excluded : Z) (w : World) :
  owns_exclusively w excluded →
  ∃ new,
    wire (send_to_chat chat_id message db (Some excluded) w) = wire w ++ new
    ∧ ∀ s, s ∈ new → send_to s ∉ live w excluded.
Proof.
  intros Hown.
  destruct (send_to_chat_calls send_json chat_id message db (Some excluded) w)
    as (_ & new & Hw & Hsnd & _).
  exists new. split; [done|]. intros s Hs.
  destruct (Hsnd s Hs) as (_ & u & _ & Hne & Hin).
  apply (Hown u); [congruence|done].
Qed.

End Laws.

Lemma connect_disconnect_round_trip_witness :
  live third_socket 1 = live two_users 1 ++ [12%nat]
  ∧ disconnect 12%nat 1 third_socket = Ok two_users.
Proof.
  apply (connect_disconnect_round_trip (λ _, true)).
  - intros u conns. unfold two_users. simpl.
    destruct (decide (u = 1)) as [->|H1].
    { rewrite lookup_insert_eq. by intros [= <-]. }
    rewrite lookup_insert_ne by done.
    destruct (decide (u = 3)) as [->|H3].
    { rewrite lookup_insert_eq. by intros [= <-]. }
    by rewrite lookup_insert_ne, lookup_empty.
  - vm_compute. intros H.
    repeat (apply elem_of_cons in H as [H|H]; [done|]).
    by apply not_elem_of_nil in H.
  - reflexivity.
Defined.

Lemma disconnect_removes_one_witness :
  [10; 11]%nat ≡ₚ 10%nat :: live socket10_closed 1
  ∧ (∀ u, u ≠ 1 → active_connections socket10_closed !! u
                  = active_connections two_users !! u)
  ∧ wire socket10_closed = wire two_users.
Proof.
  apply (disconnect_removes_one 10%nat 1 [10; 11]%nat two_users); reflexivity.
Defined.

Lemma send_to_chat_skips_excluded_witness :
  ∃ new,
    wire (send_to_chat socket10_down 7 "typing" chat7 (Some 1) two_users)
      = wire two_users ++ new
    ∧ ∀ s, s ∈ new → send_to s ∉ live two_users 1.
Proof.
  apply (send_to_chat_skips_excluded socket10_down 7 "typing" chat7 1 two_users).
  intros u ws Hne Hin Hc. unfold live, two_users in *. simpl in *.
  rewrite lookup_insert_eq in Hc. simpl in Hc.
  destruct (decide (u = 3)) as [->|H3].
  - rewrite lookup_insert_ne, lookup_insert_eq in Hin by done. simpl in Hin.
    apply list_elem_of_singleton in Hin as ->.
    repeat (apply elem_of_cons in Hc as [Hc|Hc]; [done|]).
    by apply not_elem_of_nil in Hc.
  - rewrite !lookup_insert_ne, lookup_empty in Hin by done.
    by apply not_elem_of_nil in Hin.
Defined.

End RegistryLaws.

(** ** Chats of [main.py] *)

Module ChatRouteLaws.
Import Models Main Rows Scenarios DirectChatTheory.




(** The count of the lookup does not depend on the order of the two
    users. *)
Lemma existing_direct_chat_sym (db : Session) (user1_id user2_id : Z) :
  existing_direct_chat db user1_id user2_id
  = existing_direct_chat db user2_id user1_id.
Proof.
  unfold existing_direct_chat. f_equal. apply list_filter_iff. intros chat.
  unfold count_in.
  rewrite (list_filter_iff
             (λ p, cp_chat_id p = chat_id_ chat
                   ∧ cp_user_id p ∈ [user1_id; user2_id])
             (λ p, cp_chat_id p = chat_id_ chat
                   ∧ cp_user_id p ∈ [user2_id; user1_id])); [done|].
  intros p. rewrite !elem_of_cons, !elem_of_nil. tauto.
Qed.

(** What the route leaves behind: a chat that the lookup finds. *)
Lemma direct_chat_found_after (contact_id : Z) (current_user : User)
    (now : Z) (db db1 : Session) (r : ChatResponse) :
  participants_have_chat db →
  create_or_get_direct_chat contact_id current_user now db = Ok (r, db1) →
  ∃ c, existing_direct_chat db1 (user_id_ current_user) contact_id = Some c
       ∧ response_of c = r.
Proof.
  intros Hfk Hcall.
  pose proof (create_or_get_direct_chat_again _ _ _ now _ _ _ Hfk Hcall) as H2.
  unfold create_or_get_direct_chat in H2.
  destruct (existing_direct_chat db1 (user_id_ current_user) contact_id)
    as [c|] eqn:E.
  - exists c. split; [done|]. congruence.
  - exfalso.
    destruct (first (filter _ (users db1))) as [u|]; [|done].
    simpl in H2. injection H2 as _ Hdb.
    apply (f_equal (λ d, length (chats d))) in Hdb. simpl in Hdb.
    rewrite length_app in Hdb. simpl in Hdb. lia.
Qed.

(** X6. A direct chat belongs to the unordered pair: once the route
    has answered for user A with contact B, it gives the same chat,
    and changes nothing, whether A asks again or B asks with contact
    A. *)
Theorem direct_chat_unordered_pair (userA userB : User) (now now' : Z)
    (db db1 : Session) (r : ChatResponse) :
  participants_have_chat db →
  create_or_get_direct_chat (user_id_ userB) userA now db = Ok (r, db1) →
  create_or_get_direct_chat (user_id_ userB) userA now' db1 = Ok (r, db1)
  ∧ create_or_get_direct_chat (user_id_ userA) userB now' db1 = Ok (r, db1).
Proof.
  intros Hfk Hcall.
  destruct (direct_chat_found_after _ _ _ _ _ _ Hfk Hcall) as (c & Hc & <-).
  unfold create_or_get_direct_chat.
  by rewrite <- (existing_direct_chat_sym db1 (user_id_ userA)), Hc.
Qed.

(** X7. When the lookup finds nothing and the contact exists, the
    route stores one new chat whose participants are the caller and
    the contact; when the contact does not exist it answers 404. *)
Theorem direct_chat_created (contact_id : Z) (current_user : User) (now : Z)
    (db : Session) :
  participants_have_chat db →
  existing_direct_chat db (user_id_ current_user) contact_id = None →
  match first (filter (λ u, user_id_ u = contact_id) (users db)) with
  | None =>
      create_or_get_direct_chat contact_id current_user now db
      = Raise (HTTPException 404)
  | Some contact_user =>
      ∃ r db1,
        create_or_get_direct_chat contact_id current_user now db = Ok (r, db1)
        ∧ (id r ∉ (chat_id_ <$> chats db))
        ∧ name r = "Chat: " +:+ username current_user +:+ " & "
                     +:+ username contact_user
        ∧ chats db1 = chats db ++ [mkChat (id r) (name r) now]
        ∧ participant_ids db1 (id r) = [user_id_ current_user; contact_id]
  end.
Proof.
  intros Hfk Hnone. unfold create_or_get_direct_chat. rewrite Hnone.
  destruct (first (filter _ (users db))) as [contact_user|]; [|done].
  simpl. eexists _, _. split; [reflexivity|]. simpl.
  split; [apply models_next_id_fresh|]. split; [done|]. split; [done|].
  unfold participant_ids. simpl.
  rewrite !filter_app, (filter_none _ (chat_participants db)).
  - by rewrite !filter_cons_True.
  - intros p Hp Hc. apply (models_next_id_fresh (chat_id_ <$> chats db)).
    rewrite <- Hc. by apply Hfk.
Qed.


Lemma direct_chat_unordered_pair_witness :
  create_or_get_direct_chat 2 alice 30 alice_and_bob
    = Ok (mkChatResponse 1 "Chat: alice & bob" 20, alice_and_bob)
  ∧ create_or_get_direct_chat 1 bob 30 alice_and_bob
    = Ok (mkChatResponse 1 "Chat: alice & bob" 20, alice_and_bob).
Proof.
  apply (direct_chat_unordered_pair alice bob 20 30 three_users).
  - intros p Hp. by apply not_elem_of_nil in Hp.
  - reflexivity.
Defined.

Lemma direct_chat_created_witness :
  ∃ r db1,
    create_or_get_direct_chat 2 alice 20 three_users = Ok (r, db1)
    ∧ (id r ∉ (chat_id_ <$> chats three_users))
    ∧ name r = "Chat: " +:+ username alice +:+ " & " +:+ username bob
    ∧ chats db1 = chats three_users ++ [mkChat (id r) (name r) 20]
    ∧ participant_ids db1 (id r) = [user_id_ alice; 2].
Proof.
  apply (direct_chat_created 2 alice 20 three_users).
  - intros p Hp. by apply not_elem_of_nil in Hp.
  - reflexivity.
Defined.

End ChatRouteLaws.

(** ** The message service *)

Module MessageLaws.
Import Schema MessageService ChatService Rows Scenarios MessageTheory.

(** A primary key finds its row and no other. *)
Lemma filter_pkey {A : Type} (f : A → Z) (l : list A) (x : A) :
  NoDup (f <$> l) → x ∈ l → filter (λ y, f y = f x) l = [x].
Proof.
  induction l as [|y l IH]; intros Hnd Hx.
  - by apply not_elem_of_nil in Hx.
  - rewrite fmap_cons in Hnd. apply NoDup_cons in Hnd as [Hy Hnd].
    rewrite filter_cons. apply elem_of_cons in Hx as [->|Hx].
    + rewrite decide_True by done. f_equal. apply filter_none.
      intros z Hz Hf. apply Hy. rewrite <- Hf. by apply list_elem_of_fmap_2.
    + rewrite decide_False; [by apply IH|].
      intros Hf. apply Hy. rewrite Hf. by apply list_elem_of_fmap_2.
Qed.

Lemma filter_all {A : Type} (P : A → Prop) `{!∀ x, Decision (P x)}
    (l : list A) :
  (∀ x, x ∈ l → P x) → filter P l = l.
Proof.
  induction l as [|x l IH]; intros Hl; [done|].
  rewrite filter_cons_True by (apply Hl; by left).
  f_equal. apply IH. intros y Hy. apply Hl. by right.
Qed.

Lemma scalar_one_or_none_None {A : Type} (rows : list A) :
  scalar_one_or_none rows = Ok None ↔ rows = [].
Proof.
  destruct rows as [|x [|y rows]]; simpl; split; intros H;
    try discriminate; done.
Qed.

Lemma store_eta (s : Store) :
  mkStore (users s) (conversations s) (conversation_participants s)
          (messages s) (message_versions s) (message_status s)
          (message_reactions s) (files s) (redis s) = s.
Proof. by destruct s. Qed.

(** *** Reactions *)

(** X8. Adding a reaction is idempotent: after a successful
    [add_reaction] the triple has one row, and adding it again
    returns the same message and leaves the store as it is. *)
Theorem add_reaction_idempotent (message_id user_id : Z) (emoji : string)
    (now now' : Z) (s s1 : Store) (r : option Message) :
  add_reaction message_id user_id emoji now s = (s1, Ok r) →
  (∃ row, reaction_rows s1 message_id user_id emoji = [row])
  ∧ add_reaction message_id user_id emoji now' s1 = (s1, Ok r).
Proof.
  unfold add_reaction, atomically.
  destruct (scalar_one_or_none (reaction_rows s message_id user_id emoji))
    as [[existing|]|] eqn:E; simpl; [| |done].
  - intros [= <- Hr]. apply scalar_one_or_none_Some in E.
    split; [by eexists|]. rewrite E. simpl. by rewrite Hr.
  - unfold insert_reaction.
    destruct (decide _) as [_|]; simpl; [|done].
    intros [= <- Hr]. apply scalar_one_or_none_None in E.
    assert (Hrows : reaction_rows
                      (set_message_reactions
                         (message_reactions s ++
                            [mkMessageReaction
                               (Schema.next_id (mr_id <$> message_reactions s))
                               message_id user_id emoji now]) s)
                      message_id user_id emoji
                    = [mkMessageReaction
                         (Schema.next_id (mr_id <$> message_reactions s))
                         message_id user_id emoji now]).
    { unfold reaction_rows in *. simpl. rewrite filter_app, E.
      by rewrite filter_cons_True. }
    split; [by eexists|]. rewrite Hrows. simpl. by rewrite Hr.
Qed.

(** X9. Removing a reaction that is not there returns [False] and
    changes nothing; removing a reaction that [add_reaction] has just
    stored gives back the store as it was before. *)
Theorem reaction_round_trip (message_id user_id : Z) (emoji : string)
    (now : Z) (s : Store) :
  reaction_rows s message_id user_id emoji = [] →
  remove_reaction message_id user_id emoji s = (s, Ok false)
  ∧ ∀ s1 r, add_reaction message_id user_id emoji now s = (s1, Ok r) →
            remove_reaction message_id user_id emoji s1 = (s, Ok true).
Proof.
  intros Hnone. split.
  { unfold remove_reaction, atomically. by rewrite Hnone. }
  intros s1 r. unfold add_reaction, atomically. rewrite Hnone. simpl.
  unfold insert_reaction. destruct (decide _) as [_|]; simpl; [|done].
  intros [= <- _]. unfold remove_reaction, atomically, reaction_rows in *.
  simpl. rewrite filter_app, Hnone, filter_cons_True by done. simpl.
  unfold delete_reaction_row. simpl. rewrite filter_app.
  rewrite filter_cons_False by (simpl; intros H; by apply H).
  rewrite filter_nil, app_nil_r, filter_all.
  - unfold set_message_reactions. simpl. by rewrite store_eta.
  - intros x Hx Hid.
    apply (schema_next_id_fresh (mr_id <$> message_reactions s)).
    rewrite <- Hid. by apply list_elem_of_fmap_2.
Qed.

(** *** Edits and deletions *)

(** X10. [update_message] returns [None] exactly when the message is
    missing or was sent by somebody else, and then the store is left
    untouched. *)
Theorem update_message_refused (message_id user_id : Z) (content : string)
    (now : Z) (s s' : Store) :
  update_message message_id user_id content now s = (s', Ok None)
  ↔ s' = s
    ∧ (get_message message_id s = Ok None
       ∨ ∃ m, get_message message_id s = Ok (Some m)
              ∧ m_sender_id m ≠ user_id).
Proof.
  unfold update_message, atomically.
  destruct (get_message message_id s) as [[m|]|e]; simpl.
  - destruct (decide (m_sender_id m ≠ user_id)) as [Hne|Heq].
    + split.
      * intros [= <-]. split; [done|]. right. by exists m.
      * by intros [-> _].
    + destruct (insert_version _ s) as [s2|]; simpl; split; try done.
      * intros [_ [?|(m' & [= <-] & ?)]]; done.
      * intros [_ [?|(m' & [= <-] & ?)]]; done.
  - split.
    + intros [= <-]. split; [done|]. by left.
    + by intros [-> _].
  - split; [done|]. intros [_ [?|(m' & ? & _)]]; done.
Qed.


(** An UPDATE by primary key keeps the ids of the table. *)
Lemma update_message_row_ids (id : Z) (set : Message → Message) (s : Store) :
  (∀ m, m_id (set m) = m_id m) →
  m_id <$> messages (update_message_row id set s) = m_id <$> messages s.
Proof.
  intros Hset. unfold update_message_row. simpl.
  rewrite <- list_fmap_compose. apply list_fmap_ext. intros i x _. simpl.
  by destruct (decide (m_id x = id)).
Qed.


(** X12. [delete_message] is a soft delete by the sender only:
    anybody else gets [False] and changes nothing; for the sender the
    row stays, marked with [deleted_at], every other message is kept
    as it was, and the message counts as unread for nobody. *)
Theorem delete_message_soft (user_id now : Z) (s : Store) (m : Message) :
  messages_pkey s →
  m ∈ messages s →
  (m_sender_id m ≠ user_id →
     delete_message (m_id m) user_id now s = (s, Ok false))
  ∧ (m_sender_id m = user_id →
       ∃ s', delete_message (m_id m) user_id now s = (s', Ok true)
         ∧ m_id <$> messages s' = m_id <$> messages s
         ∧ (∃ m', get_message (m_id m) s' = Ok (Some m')
                  ∧ m_deleted_at m' = Some now
                  ∧ m_content m' = m_content m)
         ∧ (∀ x, x ∈ messages s → m_id x ≠ m_id m → x ∈ messages s')
         ∧ ∀ c u x, x ∈ unread_messages s' c u → m_id x ≠ m_id m).
Proof.
  intros Hpk Hm. split; intros Hsender; unfold delete_message, atomically.
  - rewrite filter_none; [done|].
    intros x Hx [Hid Hs].
    assert (x = m) as -> by by eapply (NoDup_fmap_elem_inj m_id).
    done.
  - assert (Hrow : filter (λ x, m_id x = m_id m ∧ m_sender_id x = user_id)
                          (messages s) = [m]).
    { rewrite (list_filter_iff _ (λ x, m_sender_id x = user_id
                                       ∧ m_id x = m_id m))
        by (intros x; tauto).
      rewrite <- list_filter_filter, (filter_pkey m_id _ _ Hpk Hm).
      by rewrite filter_cons_True. }
    rewrite Hrow. simpl. eexists. split; [reflexivity|].
    split; [by apply update_message_row_ids|]. split; [|split].
    + eexists. split.
      * unfold get_message. simpl. rewrite filter_update_message by done.
        rewrite (filter_pkey m_id _ _ Hpk Hm). reflexivity.
      * done.
    + intros x Hx Hne. simpl. apply list_elem_of_fmap. exists x.
      split; [|done]. by rewrite decide_False.
    + intros c u x Hx Hid. unfold unread_messages in Hx.
      apply list_elem_of_filter in Hx as [(_ & _ & Hdel & _) Hx].
      simpl in Hx. apply list_elem_of_fmap in Hx as (y & -> & Hy).
      destruct (decide (m_id y = m_id m)); simpl in *; done.
Qed.

(** *** Receipts and unread counts *)

(** X13. [mark_as_delivered] is idempotent: marking a second time
    leaves the store that the first call left. *)
Theorem mark_as_delivered_idempotent (message_id user_id now now' : Z)
    (s : Store) :
  (mark_as_delivered message_id user_id now'
     (mark_as_delivered message_id user_id now s).1).1
  = (mark_as_delivered message_id user_id now s).1.
Proof.
  unfold mark_as_delivered at 2 3. unfold atomically.
  destruct (scalar_one_or_none (status_rows s message_id user_id))
    as [[status|]|] eqn:E; simpl.
  - destruct (decide (ms_status status = sent)) as [Hs|Hs]; simpl.
    + apply scalar_status_row in E as (Hrows & _).
      unfold mark_as_delivered, atomically.
      rewrite status_rows_update, Hrows. simpl.
      by rewrite (decide_True (P := ms_id status = ms_id status)) by done.
    + unfold mark_as_delivered, atomically. rewrite E. simpl.
      by rewrite decide_False by done.
  - apply scalar_one_or_none_None in E.
    unfold insert_status. simpl. destruct (decide _) as [Hok|Hno]; simpl.
    + unfold mark_as_delivered, atomically, status_rows in *. simpl.
      rewrite filter_app, E. by rewrite filter_cons_True by done.
    + unfold mark_as_delivered, atomically. rewrite E. simpl.
      unfold insert_status. simpl. by rewrite decide_False by done.
  - unfold mark_as_delivered, atomically. by rewrite E.
Qed.

(** X14. After a successful [mark_as_read] the message is unread no
    longer: no unread message of the user, in any conversation,
    carries its id. *)
Theorem mark_as_read_clears_unread (message_id user_id now : Z)
    (s s1 : Store) :
  mark_as_read message_id user_id now s = (s1, Ok true) →
  ∀ c x, x ∈ unread_messages s1 c user_id → m_id x ≠ message_id.
Proof.
  intros (r & Hrows & Hread)%mark_as_read_row c x Hx Hid.
  unfold unread_messages in Hx.
  apply list_elem_of_filter in Hx as [(_ & _ & _ & Hst) _].
  apply Hst. unfold stored_status. rewrite Hid, Hrows. simpl.
  by rewrite Hread.
Qed.

(** The joined rows of the messages that were there before a message
    was created are the same after it. *)
Lemma outerjoin_status_old (s s1 : Store) (user_id : Z) (row : MessageStatus)
    (l : list Message) :
  message_status s1 = message_status s ++ [row] →
  (∀ m, m ∈ l → m_id m ≠ ms_message_id row) →
  l ≫= (λ m, match status_rows s1 (m_id m) user_id with
             | [] => [(m, None)]
             | rows => (λ r, (m, Some r)) <$> rows
             end)
  = l ≫= (λ m, match status_rows s (m_id m) user_id with
               | [] => [(m, None)]
               | rows => (λ r, (m, Some r)) <$> rows
               end).
Proof.
  intros Hst. induction l as [|m l IH]; intros Hl; [done|].
  rewrite !bind_cons, IH by (intros x Hx; apply Hl; by right).
  f_equal. unfold status_rows. rewrite Hst, filter_app.
  rewrite filter_cons_False, filter_nil, app_nil_r; [done|].
  intros [Hid _]. apply (Hl m); [by left|done].
Qed.

(** X15. A message just created counts as one more unread message of
    its conversation for every user but the sender, and changes no
    other unread count. *)
Theorem create_message_unread (chat_id A : Z) (content : string)
    (message_type : MessageType) (reply_to_id file_id : option Z) (now : Z)
    (s s1 : Store) (msg : Message) :
  status_has_message s →
  create_message chat_id A content message_type reply_to_id file_id now s
    = (s1, Ok msg) →
  ∀ c u,
    get_unread_count c u s1
    = get_unread_count c u s
      + (if decide (c = chat_id ∧ u ≠ A) then 1 else 0).
Proof.
  intros Hfk (Hmsg & Hmsgs & (id & Hst) & _)%create_message_rows c u.
  assert (Hnew : m_id msg ∉ (m_id <$> messages s)).
  { rewrite Hmsg. simpl. apply schema_next_id_fresh. }
  unfold get_unread_count, outerjoin_status.
  rewrite Hmsgs, bind_app, filter_app, length_app, Nat2Z.inj_add.
  rewrite (outerjoin_status_old s s1 u _ (messages s) Hst).
  2:{ intros m Hm Hid. apply Hnew. simpl in Hid. rewrite <- Hid.
      by apply list_elem_of_fmap_2. }
  f_equal. rewrite bind_singleton.
  assert (Hold : status_rows s (m_id msg) u = []).
  { apply filter_none. intros r Hr [Hid _]. apply Hnew. rewrite <- Hid.
    by apply Hfk. }
  unfold status_rows in *. rewrite Hst, filter_app, Hold, app_nil_l.
  rewrite filter_cons, filter_nil. simpl.
  assert (Hc : m_conversation_id msg = chat_id) by by rewrite Hmsg.
  assert (Hs : m_sender_id msg = A) by by rewrite Hmsg.
  assert (Hd : m_deleted_at msg = None) by by rewrite Hmsg.
  destruct (decide (m_id msg = m_id msg ∧ A = u)) as [[_ <-]|Hne]; simpl.
  - rewrite filter_cons_False by (intros (? & ? & _); congruence).
    by rewrite decide_False by (intros [_ ?]; congruence).
  - destruct (decide (c = chat_id ∧ u ≠ A)) as [[-> Hu]|Hno].
    + by rewrite filter_cons_True by (repeat split; congruence).
    + rewrite filter_cons_False; [done|].
      intros (Hc' & Hs' & _). apply Hno. split; [congruence|].
      intros ->. apply Hne. split; [done|]. congruence.
Qed.

(** *** The Redis list of a conversation *)


(** *** Concrete runs *)

Lemma add_reaction_idempotent_witness :
  (∃ row, reaction_rows hi_liked 1 2 "+1" = [row])
  ∧ add_reaction 1 2 "+1" 400 hi_liked = (hi_liked, Ok (Some hi)).
Proof.
  apply (add_reaction_idempotent 1 2 "+1" 300 400 hi_sent hi_liked (Some hi)).
  reflexivity.
Defined.

Lemma reaction_round_trip_witness :
  remove_reaction 1 2 "+1" hi_sent = (hi_sent, Ok false)
  ∧ ∀ s1 r, add_reaction 1 2 "+1" 300 hi_sent = (s1, Ok r) →
            remove_reaction 1 2 "+1" s1 = (hi_sent, Ok true).
Proof. apply (reaction_round_trip 1 2 "+1" 300 hi_sent). reflexivity. Defined.

(** Bob likes "hi" and takes the reaction back. *)
Example like_and_unlike :
  remove_reaction 1 2 "+1" hi_liked = (hi_sent, Ok true).
Proof. reflexivity. Qed.


Lemma delete_message_soft_witness :
  (m_sender_id hi ≠ 1 → delete_message (m_id hi) 1 600 hi_sent
                         = (hi_sent, Ok false))
  ∧ (m_sender_id hi = 1 →
       ∃ s', delete_message (m_id hi) 1 600 hi_sent = (s', Ok true)
         ∧ m_id <$> messages s' = m_id <$> messages hi_sent
         ∧ (∃ m', get_message (m_id hi) s' = Ok (Some m')
                  ∧ m_deleted_at m' = Some 600
                  ∧ m_content m' = m_content hi)
         ∧ (∀ x, x ∈ messages hi_sent → m_id x ≠ m_id hi → x ∈ messages s')
         ∧ ∀ c u x, x ∈ unread_messages s' c u → m_id x ≠ m_id hi).
Proof.
  apply (delete_message_soft 1 600 hi_sent hi).
  - unfold messages_pkey. vm_compute. apply NoDup_singleton.
  - vm_compute. by left.
Defined.

(** Bob cannot delete Alice's "hi"; Alice can, and then Bob has
    nothing unread. *)
Example only_alice_deletes_hi :
  delete_message 1 2 600 hi_sent = (hi_sent, Ok false)
  ∧ get_unread_count 1 2 hi_sent = 1
  ∧ get_unread_count 1 2 (delete_message 1 1 600 hi_sent).1 = 0.
Proof. repeat split; reflexivity. Qed.

Lemma mark_as_read_clears_unread_witness :
  snd (mark_as_read 1 2 300 hi_sent) = Ok true
  ∧ ∀ c x, x ∈ unread_messages (fst (mark_as_read 1 2 300 hi_sent)) c 2 →
           m_id x ≠ 1.
Proof.
  split; [reflexivity|].
  apply (mark_as_read_clears_unread 1 2 300 hi_sent). reflexivity.
Defined.

Lemma create_message_unread_witness :
  create_message 1 1 "hi" text None None 100 two_in_conversation
  = (hi_sent, Ok hi)
  ∧ ∀ c u,
      get_unread_count c u hi_sent
      = get_unread_count c u two_in_conversation
        + (if decide (c = 1 ∧ u ≠ 1) then 1 else 0).
Proof.
  split; [reflexivity|].
  apply (create_message_unread 1 1 "hi" text None None 100
           two_in_conversation hi_sent hi).
  - intros r Hr. vm_compute in Hr. by apply not_elem_of_nil in Hr.
  - reflexivity.
Defined.

End MessageLaws.

(** ** The chat service *)

Module ChatLaws.
Import Schema ChatService Rows Scenarios MessageTheory.
Import MessageLaws (scalar_one_or_none_None).

Lemma find_app {A : Type} (f : A → bool) (l1 l2 : list A) :
  List.find f (l1 ++ l2)
  = match List.find f l1 with
    | Some x => Some x
    | None => List.find f l2
    end.
Proof.
  induction l1 as [|x l1 IH]; [done|]. simpl. by destruct (f x).
Qed.

Lemma find_agree {A : Type} (f g : A → bool) (l : list A) :
  (∀ x, x ∈ l → f x = g x) → List.find f l = List.find g l.
Proof.
  induction l as [|x l IH]; intros Hl; [done|]. simpl.
  rewrite (Hl x) by by left. destruct (g x); [done|].
  apply IH. intros y Hy. apply Hl. by right.
Qed.

Lemma filter_agree {A : Type} (P Q : A → Prop) `{!∀ x, Decision (P x)}
    `{!∀ x, Decision (Q x)} (l : list A) :
  (∀ x, x ∈ l → (P x ↔ Q x)) → filter P l = filter Q l.
Proof.
  induction l as [|x l IH]; intros Hl; [done|].
  rewrite !filter_cons.
  assert (Hx : P x ↔ Q x) by (apply Hl; by left).
  rewrite IH by (intros y Hy; apply Hl; by right).
  destruct (decide (P x)), (decide (Q x)); tauto.
Qed.

Lemma filter_comm {A : Type} (P Q : A → Prop) `{!∀ x, Decision (P x)}
    `{!∀ x, Decision (Q x)} (l : list A) :
  filter P (filter Q l) = filter Q (filter P l).
Proof.
  rewrite !list_filter_filter. apply list_filter_iff. intros x. tauto.
Qed.

(** The rows [add_participants] appends when every insert passes the
    constraints. *)
Lemma add_participants_ok (conversation_id : Z) (user_ids : list Z) (now : Z)
    (s : Store) :
  conversation_exists s conversation_id →
  (∀ u, u ∈ user_ids → user_exists s u) →
  NoDup user_ids →
  (∀ p, p ∈ conversation_participants s →
        p_conversation_id p ≠ conversation_id) →
  ∃ rows,
    add_participants conversation_id user_ids now s
      = Ok (set_conversation_participants
              (conversation_participants s ++ rows) s)
    ∧ p_user_id <$> rows = user_ids
    ∧ Forall (λ p, p_conversation_id p = conversation_id) rows.
Proof.
  intros Hconv. revert s Hconv.
  assert (Hgen : ∀ user_ids (done_ids : list Z) s,
    conversation_exists s conversation_id →
    (∀ u, u ∈ user_ids → user_exists s u) →
    NoDup user_ids →
    (∀ p, p ∈ conversation_participants s →
          p_conversation_id p = conversation_id → p_user_id p ∈ done_ids) →
    (∀ u, u ∈ user_ids → u ∉ done_ids) →
    ∃ rows,
      add_participants conversation_id user_ids now s
        = Ok (set_conversation_participants
                (conversation_participants s ++ rows) s)
      ∧ p_user_id <$> rows = user_ids
      ∧ Forall (λ p, p_conversation_id p = conversation_id) rows).
  { clear user_ids. induction user_ids as [|u user_ids IH];
      intros done_ids s Hconv Husers Hnd Hdone Hnew; simpl.
    - exists []. rewrite app_nil_r. split; [|done].
      unfold set_conversation_participants. by rewrite MessageLaws.store_eta.
    - apply NoDup_cons in Hnd as [Hu Hnd].
      unfold insert_participant. simpl. rewrite decide_True.
      2:{ split; [done|]. split; [apply Husers; by left|].
          intros (p & [= Hc Hp] & Hin)%list_elem_of_fmap.
          apply (Hnew u); [by left|]. rewrite Hp. by apply Hdone. }
      simpl.
      match goal with |- context [add_participants _ _ _ ?s1] =>
        destruct (IH (u :: done_ids) s1) as (rows & Hadd & Hids & Hall) end.
      + done.
      + intros v Hv. apply Husers. by right.
      + done.
      + intros p Hp Hc. simpl in Hp. apply elem_of_app in Hp as [Hp|Hp].
        * right. by apply Hdone.
        * apply list_elem_of_singleton in Hp as ->. by left.
      + intros v Hv Hin. apply elem_of_cons in Hin as [->|Hin]; [done|].
        apply (Hnew v); [by right|done].
      + eexists (_ :: rows). split; [|split].
        * rewrite Hadd. unfold set_conversation_participants. simpl.
          by rewrite <- app_assoc.
        * by rewrite fmap_cons, Hids.
        * by constructor. }
  intros s Hconv Husers Hnd Hnone.
  apply (Hgen user_ids [] s); try done.
  - intros p Hp Hc. by apply Hnone in Hp.
  - intros u _ Hin. by apply not_elem_of_nil in Hin.
Qed.

(** Rows of another conversation do not change the participants or
    the count of a conversation. *)
Lemma filter_conversation_app (P : ConversationParticipant → Prop)
    `{!∀ p, Decision (P p)} (conversation_id new_id : Z)
    (old rows : list ConversationParticipant) :
  conversation_id ≠ new_id →
  Forall (λ p, p_conversation_id p = new_id) rows →
  filter (λ p, p_conversation_id p = conversation_id ∧ P p) (old ++ rows)
  = filter (λ p, p_conversation_id p = conversation_id ∧ P p) old.
Proof.
  intros Hne Hall. rewrite filter_app, (filter_none _ rows).
  - by rewrite app_nil_r.
  - intros p Hp [Hc _]. eapply Forall_forall in Hall; [|done]. congruence.
Qed.

(** X17. A direct conversation that was created is found: when two
    different, existing users have no direct conversation,
    [create_conversation] for the two succeeds and
    [get_direct_conversation] then returns the conversation it
    created. *)
Theorem create_then_get_direct (creator_id a b : Z)
    (name description : option string) (now : Z) (s : Store) :
  a ≠ b →
  user_exists s a →
  user_exists s b →
  participant_has_conversation s →
  get_direct_conversation a b s = None →
  ∃ s1 conv,
    create_conversation creator_id [a; b] direct name description now s
      = (s1, Ok conv)
    ∧ p_user_id <$> participants s1 conv = [a; b]
    ∧ get_direct_conversation a b s1 = Some conv.
Proof.
  intros Hab Ha Hb Hfk Hnone.
  set (new_id := Schema.next_id (c_id <$> conversations s)).
  set (conv := mkConversation new_id direct name description now).
  set (s0 := set_conversations (conversations s ++ [conv]) s).
  assert (Hfresh : new_id ∉ (c_id <$> conversations s))
    by apply schema_next_id_fresh.
  assert (Hold : ∀ p, p ∈ conversation_participants s →
                      p_conversation_id p ≠ new_id).
  { intros p Hp Hc. apply Hfresh. rewrite <- Hc. by apply Hfk. }
  destruct (add_participants_ok new_id [a; b] now s0) as (rows & Hadd & Hids & Hall).
  { unfold conversation_exists. simpl. rewrite fmap_app. apply elem_of_app.
    right. by left. }
  { intros u Hu. apply elem_of_cons in Hu as [->|Hu]; [done|].
    by apply list_elem_of_singleton in Hu as ->. }
  { apply NoDup_cons. split; [by intros ->%list_elem_of_singleton|].
    apply NoDup_singleton. }
  { done. }
  set (s1 := set_conversation_participants
               (conversation_participants s0 ++ rows) s0) in *.
  exists s1, conv.
  assert (Hparts : participants s1 conv = rows).
  { unfold participants. simpl. rewrite filter_app, filter_none.
    - rewrite app_nil_l. apply MessageLaws.filter_all.
      intros p Hp. by eapply Forall_forall in Hall.
    - intros p Hp Hc. by apply (Hold p). }
  split; [|split].
  - change (create_conversation creator_id [a; b] direct name description now s)
      with (atomically s (s' ← add_participants new_id [a; b] now s0;
                          Ok (conv, s'))).
    by rewrite Hadd.
  - by rewrite Hparts.
  - unfold get_direct_conversation in *.
    assert (conversations s1 = conversations s ++ [conv]) as -> by done.
    rewrite filter_app, find_app.
    assert (Hcount : ∀ c, c ∈ conversations s →
              (in_subquery s1 a b (c_id c) ↔ in_subquery s a b (c_id c))).
    { intros c Hc. unfold in_subquery. simpl.
      rewrite (filter_conversation_app (λ p, p_user_id p ∈ [a; b])
                 (c_id c) new_id); [done| |done].
      intros Heq. apply Hfresh. rewrite <- Heq. by apply list_elem_of_fmap_2. }
    rewrite (filter_agree _ (λ c, in_subquery s a b (c_id c) ∧ c_type c = direct)
               (conversations s))
      by (intros c Hc; by rewrite (Hcount c Hc)).
    rewrite (find_agree _ (λ conv, bool_decide
               ((list_to_set (p_user_id <$> participants s conv) : gset Z)
                = {[a; b]}))).
    2:{ intros c [_ Hc]%list_elem_of_filter. unfold participants. simpl.
        assert (filter (λ p, p_conversation_id p = c_id c)
                  (conversation_participants s ++ rows)
                = filter (λ p, p_conversation_id p = c_id c)
                    (conversation_participants s)) as ->; [|done].
        rewrite filter_app, (filter_none _ rows); [by rewrite app_nil_r|].
        intros p Hp Heq. eapply Forall_forall in Hall; [|done].
        apply Hfresh. rewrite <- Hall, Heq. by apply list_elem_of_fmap_2. }
    rewrite Hnone.
    assert (Hin : in_subquery s1 a b (c_id conv)).
    { unfold in_subquery. simpl. rewrite filter_app, filter_none.
      - rewrite app_nil_l, MessageLaws.filter_all.
        + by rewrite <- (length_fmap p_user_id), Hids.
        + intros p Hp. split; [by eapply Forall_forall in Hall|].
          rewrite <- Hids. by apply list_elem_of_fmap_2.
      - intros p Hp [Hc _]. by apply (Hold p). }
    rewrite filter_cons_True by done. simpl.
    fold (participants s1 conv). rewrite Hparts, Hids.
    by rewrite bool_decide_eq_true_2
      by (simpl; by rewrite (right_id_L ∅ (∪))).
Qed.

(** X18. The lookup of a direct conversation does not depend on the
    order in which the two users are given. *)
Theorem get_direct_conversation_sym (user1_id user2_id : Z) (s : Store) :
  get_direct_conversation user1_id user2_id s
  = get_direct_conversation user2_id user1_id s.
Proof.
  unfold get_direct_conversation, in_subquery.
  rewrite (comm_L (∪) ({[user2_id]} : gset Z) {[user1_id]}).
  f_equal. apply list_filter_iff. intros c.
  rewrite (list_filter_iff
             (λ p, p_conversation_id p = c_id c
                   ∧ p_user_id p ∈ [user1_id; user2_id])
             (λ p, p_conversation_id p = c_id c
                   ∧ p_user_id p ∈ [user2_id; user1_id])); [done|].
  intros p. rewrite !elem_of_cons, !elem_of_nil. tauto.
Qed.

(** A user that misses, or appears twice, makes the loop of
    [create_conversation] fail. *)
Lemma add_participants_refused (conversation_id : Z) (user_ids : list Z)
    (now : Z) (s : Store) :
  (∃ u, u ∈ user_ids
        ∧ (¬ user_exists s u
           ∨ (conversation_id, u) ∈
               ((λ p, (p_conversation_id p, p_user_id p))
                  <$> conversation_participants s)))
  ∨ ¬ NoDup user_ids →
  add_participants conversation_id user_ids now s = Raise IntegrityError.
Proof.
  revert s. induction user_ids as [|u user_ids IH]; intros s Hbad; simpl.
  { destruct Hbad as [(u & Hu & _)|Hnd].
    - by apply not_elem_of_nil in Hu.
    - exfalso. apply Hnd. constructor. }
  unfold insert_participant. simpl.
  destruct (decide _) as [(Hc & Hu & Hk)|]; [|done]. simpl.
  apply IH. simpl.
  destruct Hbad as [(v & Hv & Hbad)|Hnd].
  - left. apply elem_of_cons in Hv as [->|Hv].
    + exfalso. destruct Hbad; done.
    + exists v. split; [done|]. destruct Hbad as [?|Hin]; [by left|right].
      rewrite fmap_app. apply elem_of_app. by left.
  - destruct (decide (u ∈ user_ids)) as [Hin|Hnin].
    + left. exists u. split; [done|]. right.
      rewrite fmap_app. apply elem_of_app. right. by left.
    + right. intros Hnd'. apply Hnd. by constructor.
Qed.

(** X19. [create_conversation] is refused as a whole, with nothing
    stored, when one of the users does not exist or a user is listed
    twice; so nobody gets a conversation with themselves. *)
Theorem create_conversation_refused (creator_id : Z) (user_ids : list Z)
    (type : ConversationType) (name description : option string) (now : Z)
    (s : Store) :
  (∃ u, u ∈ user_ids ∧ ¬ user_exists s u) ∨ ¬ NoDup user_ids →
  create_conversation creator_id user_ids type name description now s
  = (s, Raise IntegrityError).
Proof.
  intros Hbad. unfold create_conversation, atomically, insert_conversation.
  simpl. rewrite add_participants_refused; [done|].
  destruct Hbad as [(u & Hu & Hno)|Hnd]; [left|by right].
  exists u. split; [done|]. by left.
Qed.

(** X20. After [add_participant] the user is a participant of the
    conversation; the call returns [False], and changes nothing, just
    when the user was one already, and a second call always does. *)
Theorem add_participant_member (conversation_id user_id now now' : Z)
    (s s1 : Store) (added : bool) :
  add_participant conversation_id user_id now s = (s1, Ok added) →
  is_participant conversation_id user_id s1 = Ok true
  ∧ is_participant conversation_id user_id s = Ok (negb added)
  ∧ (added = false → s1 = s)
  ∧ add_participant conversation_id user_id now' s1 = (s1, Ok false).
Proof.
  unfold add_participant, atomically, is_participant.
  destruct (scalar_one_or_none _) as [[row|]|] eqn:E; simpl; [| |done].
  - intros [= <- <-]. rewrite E. simpl. done.
  - unfold insert_participant. destruct (decide _) as [_|]; simpl; [|done].
    intros [= <- <-]. apply scalar_one_or_none_None in E. simpl.
    rewrite !filter_app, !E, !filter_cons_True by done. simpl. done.
Qed.

(** X21. [remove_participant] takes the user out of the conversation
    and keeps every other membership; for a user who is no
    participant it returns [False] and changes nothing; and removing a
    participant that [add_participant] has just added gives back the
    store as it was. *)
Theorem remove_participant_leaves (conversation_id user_id now : Z)
    (s : Store) :
  NoDup (p_id <$> conversation_participants s) →
  (∀ s1 removed,
     remove_participant conversation_id user_id s = (s1, Ok removed) →
     is_participant conversation_id user_id s1 = Ok false
     ∧ is_participant conversation_id user_id s = Ok removed
     ∧ (removed = false → s1 = s)
     ∧ ∀ p, p ∈ conversation_participants s →
            (p_conversation_id p, p_user_id p) ≠ (conversation_id, user_id) →
            p ∈ conversation_participants s1)
  ∧ (∀ s1, add_participant conversation_id user_id now s = (s1, Ok true) →
           remove_participant conversation_id user_id s1 = (s, Ok true)).
Proof.
  intros Hpk. split.
  - intros s1 removed. unfold remove_participant, atomically, is_participant.
    destruct (scalar_one_or_none _) as [[row|]|] eqn:E; simpl; [| |done].
    + intros [= <- <-]. apply scalar_one_or_none_Some in E.
      unfold delete_participant_row. simpl.
      rewrite filter_comm, E.
      rewrite filter_cons_False by (intros H; by apply H).
      split; [done|]. split; [done|]. split; [done|].
      intros p Hp Hkey. apply list_elem_of_filter. split; [|done].
      intros Hid. apply Hkey.
      assert (Hrow : row ∈ conversation_participants s).
      { assert (Hin : row ∈ filter
                  (λ p, p_conversation_id p = conversation_id
                        ∧ p_user_id p = user_id)
                  (conversation_participants s)) by (rewrite E; by left).
        by apply list_elem_of_filter in Hin as [_ ?]. }
      assert (p = row) as -> by by eapply (NoDup_fmap_elem_inj p_id).
      assert (Hin : row ∈ [row]) by by left. rewrite <- E in Hin.
      apply list_elem_of_filter in Hin as [[-> ->] _]. done.
    + intros [= <- <-]. rewrite E. done.
  - intros s1. unfold add_participant, atomically, is_participant.
    destruct (scalar_one_or_none _) as [[row|]|] eqn:E; simpl; [done| |done].
    unfold insert_participant. destruct (decide _) as [_|]; simpl; [|done].
    intros [= <-]. apply scalar_one_or_none_None in E.
    unfold remove_participant, atomically. simpl.
    rewrite filter_app, E, filter_cons_True by done. simpl.
    unfold delete_participant_row. simpl. rewrite filter_app.
    rewrite filter_cons_False by (simpl; intros H; by apply H).
    rewrite filter_nil, app_nil_r, MessageLaws.filter_all.
    + unfold set_conversation_participants. simpl.
      by rewrite MessageLaws.store_eta.
    + intros x Hx Hid.
      apply (schema_next_id_fresh (p_id <$> conversation_participants s)).
      rewrite <- Hid. by apply list_elem_of_fmap_2.
Qed.

(** *** Concrete runs *)

Lemma create_then_get_direct_witness :
  ∃ s1 conv,
    create_conversation 1 [1; 2] direct None None 50 two_strangers
      = (s1, Ok conv)
    ∧ p_user_id <$> participants s1 conv = [1; 2]
    ∧ get_direct_conversation 1 2 s1 = Some conv.
Proof.
  apply (create_then_get_direct 1 1 2 None None 50 two_strangers).
  - done.
  - vm_compute. by left.
  - vm_compute. right. by left.
  - intros p Hp. by apply not_elem_of_nil in Hp.
  - reflexivity.
Defined.

Lemma create_conversation_refused_witness :
  create_conversation 1 [1; 1] direct None None 50 two_strangers
  = (two_strangers, Raise IntegrityError).
Proof.
  apply (create_conversation_refused 1 [1; 1] direct None None 50
           two_strangers).
  right. intros [Hnin _]%NoDup_cons. apply Hnin. by left.
Defined.

Lemma add_participant_member_witness :
  is_participant 1 2 alice_with_bob = Ok true
  ∧ is_participant 1 2 alice_alone = Ok (negb true)
  ∧ (true = false → alice_with_bob = alice_alone)
  ∧ add_participant 1 2 70 alice_with_bob = (alice_with_bob, Ok false).
Proof.
  apply (add_participant_member 1 2 60 70 alice_alone alice_with_bob true).
  reflexivity.
Defined.

Lemma remove_participant_leaves_witness :
  (∀ s1 removed,
     remove_participant 1 1 alice_alone = (s1, Ok removed) →
     is_participant 1 1 s1 = Ok false
     ∧ is_participant 1 1 alice_alone = Ok removed
     ∧ (removed = false → s1 = alice_alone)
     ∧ ∀ p, p ∈ conversation_participants alice_alone →
            (p_conversation_id p, p_user_id p) ≠ (1, 1) →
            p ∈ conversation_participants s1)
  ∧ (∀ s1, add_participant 1 1 60 alice_alone = (s1, Ok true) →
           remove_participant 1 1 s1 = (alice_alone, Ok true)).
Proof.
  apply (remove_participant_leaves 1 1 60 alice_alone).
  vm_compute. apply NoDup_singleton.
Defined.

(** Bob is added to the group and removed again. *)
Example bob_joins_and_leaves :
  remove_participant 1 2 alice_with_bob = (alice_alone, Ok true)
  ∧ remove_participant 1 2 alice_alone = (alice_alone, Ok false).
Proof. split; reflexivity. Qed.

End ChatLaws.

(** ** The socket endpoint *)

Module EndpointLaws.
Import Models ConnectionManager Endpoint Rows Scenarios RegistryTheory.
Import RegistryLaws (list_remove_snoc).

Section Laws.
Variable accept : WebSocket → bool.
Variable send_json : list (Send Event) → WebSocket → Event → bool.
Variable decode : string → option (option Z).

Abbreviation handle_frame := (handle_frame send_json).
Abbreviation receive_loop := (receive_loop send_json).
Abbreviation websocket_endpoint := (websocket_endpoint accept send_json decode).
Abbreviation send_message := (send_message send_json).
Abbreviation broadcast := (broadcast send_json).

Lemma broadcast_registry (chat_id : option Z) (message : Event) (db : Database)
    (exclude_user_id : option Z) (w : World Event) :
  active_connections (broadcast chat_id message db exclude_user_id w)
  = active_connections w.
Proof.
  destruct chat_id as [c|]; [|done].
  by destruct (send_to_chat_calls send_json c message (session db)
                 exclude_user_id w) as [? _].
Qed.

(** The row found for a user in a chat makes the user a participant. *)
Lemma participant_row_is_participant (db : Database) (chat_id user_id : Z)
    (p : ChatParticipant) :
  participant_row db (Some chat_id) user_id = Some p →
  is_participant (session db) chat_id user_id.
Proof.
  unfold participant_row, first. intros Hp%head_Some_elem_of.
  apply list_elem_of_filter in Hp as [[Hc Hu] Hp].
  unfold is_participant. rewrite <- Hu. apply list_elem_of_fmap_2.
  by apply list_elem_of_filter.
Qed.

(** What one turn of the loop can change: the wire, and the table of
    messages by one message of the user in a chat of the user. *)
Lemma handle_frame_changes (websocket : WebSocket) (user : User) (data : Frame)
    (now : Z) (db : Database) (w : World Event) :
  let st' := (handle_frame websocket user data now (db, w)).1 in
  active_connections st'.2 = active_connections w
  ∧ session st'.1 = session db
  ∧ ∃ new, messages st'.1 = messages db ++ new
      ∧ Forall (λ m, message_sender_id m = user_id_ user
                     ∧ is_participant (session db) (message_chat_id m)
                         (user_id_ user)) new.
Proof.
  unfold Endpoint.handle_frame.
  destruct (decide (type data = Some "message")) as [_|_].
  { destruct (participant_row db (chatId data) (user_id_ user)) as [p|] eqn:P;
      [destruct (chatId data) as [c|] eqn:C|]; simpl.
    - destruct (frame_content data) as [txt|]; simpl.
      + split; [apply (broadcast_registry (Some c))|]. split; [done|].
        eexists [_]. split; [done|]. constructor; [|done]. simpl.
        split; [done|]. by eapply participant_row_is_participant.
      + split; [done|]. split; [done|]. exists []. by rewrite app_nil_r.
    - split; [done|]. split; [done|]. exists []. by rewrite app_nil_r.
    - split; [done|]. split; [done|]. exists []. by rewrite app_nil_r. }
  destruct (decide (type data = Some "typing")) as [_|_]; simpl.
  { split; [apply broadcast_registry|]. split; [done|].
    exists []. by rewrite app_nil_r. }
  destruct (decide (type data = Some "read")) as [_|_]; simpl.
  { split; [apply broadcast_registry|]. split; [done|].
    exists []. by rewrite app_nil_r. }
  split; [done|]. split; [done|]. exists []. by rewrite app_nil_r.
Qed.

Lemma receive_loop_cons (websocket : WebSocket) (user : User) (data : Frame)
    (now : Z) (frames : list (Frame * Z)) (ending : Ending)
    (st : Database * World Event) :
  receive_loop websocket user ((data, now) :: frames) ending st
  = match handle_frame websocket user data now st with
    | (st, None) => receive_loop websocket user frames ending st
    | (st, Some e) => (st, Some e)
    end.
Proof. done. Qed.

Lemma receive_loop_changes (websocket : WebSocket) (user : User)
    (frames : list (Frame * Z)) (ending : Ending) (db : Database)
    (w : World Event) :
  let st' := (receive_loop websocket user frames ending (db, w)).1 in
  active_connections st'.2 = active_connections w
  ∧ session st'.1 = session db
  ∧ ∃ new, messages st'.1 = messages db ++ new
      ∧ Forall (λ m, message_sender_id m = user_id_ user
                     ∧ is_participant (session db) (message_chat_id m)
                         (user_id_ user)) new.
Proof.
  revert db w. induction frames as [|[data now] frames IH]; intros db w.
  { simpl. split; [done|]. split; [done|]. exists []. by rewrite app_nil_r. }
  rewrite receive_loop_cons.
  pose proof (handle_frame_changes websocket user data now db w) as H.
  destruct (handle_frame websocket user data now (db, w))
    as [[db1 w1] [e|]]; simpl in H |- *;
    destruct H as (Hac & Hse & new1 & Hm & Hall).
  - split; [done|]. split; [done|]. by exists new1.
  - destruct (IH db1 w1) as (Hac2 & Hse2 & new2 & Hm2 & Hall2).
    split; [by rewrite Hac2|]. split; [by rewrite Hse2|].
    exists (new1 ++ new2). rewrite Hm2, Hm, <- app_assoc. split; [done|].
    apply Forall_app. split; [done|]. by rewrite Hse in Hall2.
Qed.

(** X22. Over the socket a user stores only messages of their own, in
    chats they participate in: whatever frames arrive, the loop leaves
    the tables of users, chats and participants alone and appends to
    [messages] only such rows. *)
Theorem socket_stores_own_messages (websocket : WebSocket) (user : User)
    (frames : list (Frame * Z)) (ending : Ending) (db : Database)
    (w : World Event) :
  let db' := (receive_loop websocket user frames ending (db, w)).1.1 in
  session db' = session db
  ∧ ∃ new, messages db' = messages db ++ new
      ∧ Forall (λ m, message_sender_id m = user_id_ user
                     ∧ is_participant (session db) (message_chat_id m)
                         (user_id_ user)) new.
Proof.
  by destruct (receive_loop_changes websocket user frames ending db w)
    as (_ & ? & ?).
Qed.

(** Unregistering a socket that was registered last, on a world that
    has the dictionary [connect] left, gives the dictionary as it was
    before. *)
Lemma disconnect_after_connect (websocket : WebSocket) (user_id : Z)
    (w w1 w2 : World Event) :
  no_empty_entry w →
  websocket ∉ live w user_id →
  connect accept websocket user_id w = Ok w1 →
  active_connections w2 = active_connections w1 →
  ∃ w3, disconnect websocket user_id w2 = Ok w3
        ∧ active_connections w3 = active_connections w
        ∧ wire w3 = wire w2.
Proof.
  intros Hinv Hfresh. unfold connect. destruct (accept websocket); [|done].
  intros [= <-] Hac. unfold disconnect. rewrite Hac. simpl.
  unfold live in Hfresh.
  destruct (active_connections w !! user_id) as [conns|] eqn:E; simpl in *.
  - rewrite E. simpl. rewrite !lookup_insert_eq. simpl.
    rewrite (list_remove_snoc _ _ Hfresh). simpl.
    destruct conns as [|c conns]; [by apply Hinv in E|].
    eexists. split; [done|]. simpl. split; [|done].
    by rewrite insert_insert_eq, (insert_id _ _ _ E).
  - rewrite !lookup_insert_eq. simpl. rewrite decide_True by done. simpl.
    eexists. split; [done|]. simpl. split; [|done].
    by rewrite insert_insert_eq, delete_insert_id.
Qed.

(** X23. However a call of the endpoint goes (token refused, user
    unknown, [accept] failing, any frames, any ending), the dictionary
    of live connections is afterwards what it was before, for a socket
    that was not registered. *)
Theorem endpoint_leaves_registry (websocket : WebSocket) (token : string)
    (frames : list (Frame * Z)) (ending : Ending) (db : Database)
    (w : World Event) :
  no_empty_entry w →
  (∀ u, websocket ∉ live w u) →
  active_connections
    (websocket_endpoint websocket token frames ending (db, w)).1.2
  = active_connections w.
Proof.
  intros Hinv Hfresh. unfold Endpoint.websocket_endpoint.
  destruct (decode token) as [[user_id|]|]; [|done|done].
  destruct (first _) as [user|]; [|done]. simpl.
  destruct (connect accept websocket user_id w) as [w1|e] eqn:C.
  - pose proof (receive_loop_changes websocket user frames ending db w1)
      as (Hac & _).
    destruct (receive_loop websocket user frames ending (db, w1))
      as [[db2 w2] e]. simpl in *.
    destruct (disconnect_after_connect websocket user_id w w1 w2 Hinv
                (Hfresh user_id) C Hac) as (w3 & Hd & Hac3 & _).
    unfold unregister. simpl. by rewrite Hd.
  - unfold unregister. simpl.
    destruct (disconnect websocket user_id w) as [w'|] eqn:D; [|done].
    simpl. unfold disconnect in D.
    destruct (active_connections w !! user_id) as [conns|] eqn:E.
    + specialize (Hfresh user_id). unfold live in Hfresh. rewrite E in Hfresh.
      simpl in Hfresh. by rewrite (list_remove_absent _ _ Hfresh) in D.
    + by injection D as <-.
Qed.

(** X24. When [accept] fails for a user who has another connection
    open, the handler's own call of [disconnect] raises, and the
    [ValueError] leaves the endpoint. *)
Theorem accept_failure_escapes (websocket : WebSocket) (token : string)
    (frames : list (Frame * Z)) (ending : Ending) (db : Database)
    (w : World Event) (user_id : Z) (user : User) (conns : list WebSocket) :
  decode token = Some (Some user_id) →
  first (filter (λ u, user_id_ u = user_id) (users (session db))) = Some user →
  accept websocket = false →
  active_connections w !! user_id = Some conns →
  websocket ∉ conns →
  websocket_endpoint websocket token frames ending (db, w)
  = ((db, w), Escaped ValueError).
Proof.
  intros Htok Huser Hacc Hconns Hfresh. unfold Endpoint.websocket_endpoint.
  rewrite Htok. simpl. rewrite Huser. unfold connect. rewrite Hacc.
  unfold unregister. simpl.
  by rewrite (disconnect_unknown_handle _ _ _ _ Hconns Hfresh).
Qed.

(** X25. A typing frame is relayed without a membership check:
    whoever sends it, every live connection of every participant of
    the chat other than the sender is sent the typing event, and
    nothing is stored. *)
Theorem typing_is_relayed (websocket : WebSocket) (user : User) (data : Frame)
    (c now : Z) (db : Database) (w : World Event) :
  type data = Some "typing" →
  chatId data = Some c →
  let r := handle_frame websocket user data now (db, w) in
  r.2 = None
  ∧ r.1.1 = db
  ∧ ∃ new, wire r.1.2 = wire w ++ new
      ∧ ∀ u ws, is_participant (session db) c u → u ≠ user_id_ user →
          ws ∈ live w u →
          ∃ s, s ∈ new ∧ send_to s = ws
               ∧ send_payload s
                 = typing_event (Some c) (user_id_ user) (username user)
                     (default false (isTyping data)).
Proof.
  intros Hty Hc. unfold Endpoint.handle_frame. rewrite Hty, Hc.
  rewrite decide_False by done. rewrite decide_True by done. simpl.
  split; [done|]. split; [done|].
  destruct (send_to_chat_calls send_json c
              (typing_event (Some c) (user_id_ user) (username user)
                 (default false (isTyping data)))
              (session db) (Some (user_id_ user)) w)
    as (_ & new & Hw & _ & Hrcv).
  exists new. split; [done|]. intros u ws Hu Hne Hws.
  apply (Hrcv u ws); [done| |done]. congruence.
Qed.

(** X26. A message frame of a participant does what the route
    [send_message] does: both store the same row and make the same
    calls, and every live connection of every participant, the
    sender's included, is sent the message. *)
Theorem message_frame_like_route (websocket : WebSocket) (user : User)
    (c : Z) (txt : string) (typing : option bool) (mid : option Z) (now : Z)
    (db : Database) (w : World Event) :
  is_Some (participant_row db (Some c) (user_id_ user)) →
  let r := handle_frame websocket user
             (mkFrame (Some "message") (Some c) (Some txt) typing mid) now
             (db, w) in
  r.2 = None
  ∧ (∃ response, send_message c txt user now (db, w) = Ok (response, r.1))
  ∧ messages r.1.1
    = messages db ++ [mkMessage (next_id (message_id_ <$> messages db)) c
                        (user_id_ user) txt now]
  ∧ ∃ new, wire r.1.2 = wire w ++ new
      ∧ ∀ u ws, is_participant (session db) c u → ws ∈ live w u →
          ∃ s, s ∈ new ∧ send_to s = ws
               ∧ send_payload s
                 = message_event c (next_id (message_id_ <$> messages db))
                     (user_id_ user) (username user) txt now.
Proof.
  intros [p Hp]. unfold Endpoint.handle_frame, Endpoint.send_message.
  cbn [type chatId frame_content]. rewrite decide_True by done.
  rewrite Hp. simpl.
  split; [done|]. split; [by eexists|]. split; [done|].
  destruct (send_to_chat_calls send_json c
              (message_event c (next_id (message_id_ <$> messages db))
                 (user_id_ user) (username user) txt now)
              (session db) None w) as (_ & new & Hw & _ & Hrcv).
  exists new. split; [done|]. intros u ws Hu Hws. by apply (Hrcv u ws).
Qed.

End Laws.

(** *** Concrete runs *)

Lemma lobby_no_empty_entry : no_empty_entry lobby.
Proof.
  intros u conns. unfold lobby. simpl.
  destruct (decide (u = 1)) as [->|H1].
  { rewrite lookup_insert_eq. by intros [= <-]. }
  rewrite lookup_insert_ne by done.
  destruct (decide (u = 3)) as [->|H3].
  { rewrite lookup_insert_eq. by intros [= <-]. }
  by rewrite lookup_insert_ne, lookup_empty.
Qed.

Lemma lobby_fresh_socket (u : Z) : 31%nat ∉ live lobby u.
Proof.
  unfold live, lobby. simpl.
  destruct (decide (u = 1)) as [->|H1].
  { rewrite lookup_insert_eq. simpl. intros H.
    repeat (apply elem_of_cons in H as [H|H]; [done|]).
    by apply not_elem_of_nil in H. }
  rewrite lookup_insert_ne by done.
  destruct (decide (u = 3)) as [->|H3].
  { rewrite lookup_insert_eq. simpl. intros H.
    repeat (apply elem_of_cons in H as [H|H]; [done|]).
    by apply not_elem_of_nil in H. }
  rewrite lookup_insert_ne, lookup_empty by done. apply not_elem_of_nil.
Qed.

Lemma endpoint_leaves_registry_witness :
  active_connections
    (websocket_endpoint (λ _, true) all_up carol_only 31%nat "carol"
       [(typing_in_7, 5)] ClientDisconnect (office, lobby)).1.2
  = active_connections lobby.
Proof.
  apply (endpoint_leaves_registry (λ _, true) all_up carol_only).
  - apply lobby_no_empty_entry.
  - apply lobby_fresh_socket.
Defined.

Lemma accept_failure_escapes_witness :
  websocket_endpoint (λ _, false) all_up carol_only 31%nat "carol"
    [(typing_in_7, 5)] ClientDisconnect (office, lobby)
  = ((office, lobby), Escaped ValueError).
Proof.
  apply (accept_failure_escapes (λ _, false) all_up carol_only 31%nat "carol"
           [(typing_in_7, 5)] ClientDisconnect office lobby 3 carol [30%nat]);
    try reflexivity.
  intros H. apply elem_of_cons in H as [H|H]; [done|].
  by apply not_elem_of_nil in H.
Defined.

Lemma typing_is_relayed_witness :
  let r := handle_frame all_up 30%nat carol typing_in_7 5 (office, lobby) in
  r.2 = None
  ∧ r.1.1 = office
  ∧ ∃ new, wire r.1.2 = wire lobby ++ new
      ∧ ∀ u ws, is_participant (session office) 7 u → u ≠ user_id_ carol →
          ws ∈ live lobby u →
          ∃ s, s ∈ new ∧ send_to s = ws
               ∧ send_payload s
                 = typing_event (Some 7) (user_id_ carol) (username carol)
                     (default false (isTyping typing_in_7)).
Proof.
  apply (typing_is_relayed all_up 30%nat carol typing_in_7 7 5 office lobby);
    reflexivity.
Defined.

(** carol, who is not in chat 7, types there: both sockets of alice
    are told, and a message of hers to chat 7 only earns an error. *)
Example carol_types_in_chat_7 :
  wire (handle_frame all_up 30%nat carol typing_in_7 5 (office, lobby)).1.2
  = [mkSend 10%nat (typing_event (Some 7) 3 "carol" true) true;
     mkSend 11%nat (typing_event (Some 7) 3 "carol" true) true]
  ∧ handle_frame all_up 30%nat carol
      (mkFrame (Some "message") (Some 7) (Some "hi") None None) 6
      (office, lobby)
    = ((office,
        mkWorld (active_connections lobby)
          [mkSend 30%nat
             (error_event "You are not a participant in this chat") true]),
       None).
Proof. split; reflexivity. Qed.

Lemma message_frame_like_route_witness :
  let r := handle_frame all_up 10%nat alice
             (mkFrame (Some "message") (Some 7) (Some "hi") None None) 6
             (office, lobby) in
  r.2 = None
  ∧ (∃ response,
       send_message all_up 7 "hi" alice 6 (office, lobby) = Ok (response, r.1))
  ∧ messages r.1.1
    = messages office ++ [mkMessage (next_id (message_id_ <$> messages office))
                            7 (user_id_ alice) "hi" 6]
  ∧ ∃ new, wire r.1.2 = wire lobby ++ new
      ∧ ∀ u ws, is_participant (session office) 7 u → ws ∈ live lobby u →
          ∃ s, s ∈ new ∧ send_to s = ws
               ∧ send_payload s
                 = message_event 7 (next_id (message_id_ <$> messages office))
                     (user_id_ alice) (username alice) "hi" 6.
Proof.
  apply (message_frame_like_route all_up 10%nat alice 7 "hi" None None 6
           office lobby).
  by eexists.
Defined.

End EndpointLaws.

(** ** Accounts *)

Module AccountLaws.
Import Models Accounts Rows Scenarios DirectChatTheory.

Section Laws.
Variable get_password_hash : string → string → string.
Variable verify_password : string → string → bool.
Variable create_access_token : Z → string.

Abbreviation register := (register get_password_hash).
Abbreviation login := (login verify_password create_access_token).

(** X27. [register] answers 400 exactly when the user name or the
    e-mail address is taken, and stores nothing then; otherwise it
    appends one user, under a new id, and user names, addresses and
    ids stay unique. *)
Theorem register_keeps_accounts_unique (username_given email_given password
    salt : string) (now : Z) (db : Session) :
  unique_accounts db →
  match register username_given email_given password salt now db with
  | Raise e =>
      e = HTTPException 400
      ∧ ((username_given ∈ (username <$> users db))
         ∨ (email_given ∈ (email <$> users db)))
  | Ok (r, db') =>
      (username_given ∉ (username <$> users db))
      ∧ (email_given ∉ (email <$> users db))
      ∧ users db'
        = users db ++ [mkUser (id r) username_given email_given
                         (get_password_hash salt password) now]
      ∧ chats db' = chats db
      ∧ chat_participants db' = chat_participants db
      ∧ unique_accounts db'
  end.
Proof.
  intros (Hnames & Hmails & Hids). unfold Accounts.register, first.
  destruct (head (filter _ (users db))) as [u|] eqn:E.
  - split; [done|]. apply head_Some_elem_of, list_elem_of_filter in E
      as [[<-|<-] Hu]; [left|right]; by apply list_elem_of_fmap_2.
  - apply head_None in E.
    assert (Hname : username_given ∉ (username <$> users db)).
    { intros (u & -> & Hu)%list_elem_of_fmap.
      apply (filter_nil_not_elem_of _ _ u E); [by left|done]. }
    assert (Hmail : email_given ∉ (email <$> users db)).
    { intros (u & -> & Hu)%list_elem_of_fmap.
      apply (filter_nil_not_elem_of _ _ u E); [by right|done]. }
    simpl. repeat (split; [done|]). unfold unique_accounts. simpl.
    rewrite !fmap_app. simpl.
    repeat split; apply NoDup_app; (split; [done|]);
      (split; [|apply NoDup_singleton]);
      intros x Hx ->%list_elem_of_singleton; try done.
    by apply models_next_id_fresh in Hx.
Qed.

(** X28. Who has registered can log in: with a [verify] that accepts
    what [hash] made of the password, [login] with the registered
    name and password returns the token of the new user. *)
Theorem register_then_login (username_given email_given password
    salt : string) (now : Z) (db db' : Session) (r : UserResponse) :
  (∀ salt p, verify_password p (get_password_hash salt p) = true) →
  register username_given email_given password salt now db = Ok (r, db') →
  login username_given password db' = Ok (create_access_token (id r), r).
Proof.
  intros Hverify. unfold Accounts.register, Accounts.login, first.
  destruct (head (filter _ (users db))) as [u|] eqn:E; [done|].
  apply head_None in E. intros [= <- <-]. simpl.
  rewrite filter_app, filter_none.
  - rewrite filter_cons_True by done. simpl. by rewrite Hverify.
  - intros u Hu Hname. apply (filter_nil_not_elem_of _ _ u E); [by left|done].
Qed.

End Laws.

(** *** Concrete runs *)

Lemma register_keeps_accounts_unique_witness :
  match register (λ _ p, p) "dave" "dave@example.org" "secret" "salt" 40
          three_users with
  | Raise e =>
      e = HTTPException 400
      ∧ (("dave" ∈ (username <$> users three_users))
         ∨ ("dave@example.org" ∈ (email <$> users three_users)))
  | Ok (r, db') =>
      ("dave" ∉ (username <$> users three_users))
      ∧ ("dave@example.org" ∉ (email <$> users three_users))
      ∧ users db'
        = users three_users ++ [mkUser (id r) "dave" "dave@example.org"
                                  "secret" 40]
      ∧ chats db' = chats three_users
      ∧ chat_participants db' = chat_participants three_users
      ∧ unique_accounts db'
  end.
Proof.
  apply (register_keeps_accounts_unique (λ _ p, p) "dave" "dave@example.org"
           "secret" "salt" 40 three_users).
  unfold unique_accounts. repeat split; apply (bool_decide_unpack _);
    by vm_compute.
Defined.

Lemma register_then_login_witness :
  login (λ p h, bool_decide (p = h)) (λ i, "token") "dave" "secret"
    (mkSession [alice; bob; carol;
                mkUser 4 "dave" "dave@example.org" "secret" 40] [] [])
  = Ok ("token", mkUserResponse 4 "dave" "dave@example.org" 40).
Proof.
  apply (register_then_login (λ _ p, p) (λ p h, bool_decide (p = h))
           (λ i, "token") "dave" "dave@example.org" "secret" "salt" 40
           three_users).
  - intros _ p. by apply bool_decide_eq_true_2.
  - reflexivity.
Defined.

(** A name that is taken is refused, whatever the address. *)
Example alice_is_taken :
  register (λ _ p, p) "alice" "other@example.org" "secret" "salt" 40
    three_users
  = Raise (HTTPException 400).
Proof. reflexivity. Qed.

End AccountLaws.

(** ** Strings *)

Module HelperLaws.
Import Helpers.

Section Laws.
Context {char : Type}.
Variable full_stop : char.

Abbreviation truncate_string := (truncate_string full_stop).

(** X29. [truncate_string] returns a string of at most [max_length]
    characters exactly when the string already fits or [max_length]
    is at least 3; a string that does not fit is then cut to
    [max_length - 3] characters followed by three full stops, and one
    that fits is returned as it is. *)
Theorem truncate_string_length (s : list char) (max_length : Z) :
  (Z.of_nat (length (truncate_string s max_length)) ≤ max_length
   ↔ Z.of_nat (length s) ≤ max_length ∨ 3 ≤ max_length)
  ∧ (Z.of_nat (length s) ≤ max_length → truncate_string s max_length = s)
  ∧ (3 ≤ max_length < Z.of_nat (length s) →
       truncate_string s max_length
       = take (Z.to_nat (max_length - 3)) s
           ++ [full_stop; full_stop; full_stop]
       ∧ Z.of_nat (length (truncate_string s max_length)) = max_length).
Proof.
  unfold Helpers.truncate_string, slice_to.
  destruct (decide (Z.of_nat (length s) ≤ max_length)) as [Hfit|Hlong].
  { split; [tauto|]. split; [done|]. lia. }
  destruct (decide (0 ≤ max_length - 3)) as [H3|H3].
  - rewrite length_app, length_take. simpl. split; [split; lia|].
    split; [lia|]. intros _. split; [done|]. lia.
  - rewrite length_app, length_take. simpl. split; [split; lia|].
    split; lia.
Qed.

End Laws.

(** Cut to three characters, "alice" (as code points) becomes three
    full stops; cut to two, it grows. *)
Example truncate_edge :
  truncate_string 46 [97; 108; 105; 99; 101] 3 = [46; 46; 46]
  ∧ truncate_string 46 [97; 108; 105; 99; 101] 2
    = [97; 108; 105; 99; 46; 46; 46]
  ∧ truncate_string 46 [97; 108; 105; 99; 101] 5 = [97; 108; 105; 99; 101].
Proof. repeat split; reflexivity. Qed.

End HelperLaws.
